(** * NotesViewerBackend (app.py): a shallow embedding of the Flask backend

    The backend keeps a users registry ([users.json]) and the uploaded notes
    in a GitHub repository, through the GitHub Contents API.  Python strings
    are modelled as lists of Unicode code points ([list Z]); byte strings as
    lists of byte values ([list Z], each in [0, 255]); JSON-decoded Python
    values as [pyval]. *)

From Stdlib Require Import ZArith List Bool Lia String Ascii.
Import ListNotations.
Open Scope Z_scope.
Set Warnings "-register-all".

(** Python [str]: a sequence of code points. *)
Definition pystr := list Z.

(** Python [bytes]: a sequence of byte values. *)
Definition bytes := list Z.

(** An ASCII literal of the source, as a [pystr]. *)
Definition lit (s : string) : pystr :=
  map (fun a => Z.of_nat (nat_of_ascii a)) (list_ascii_of_string s).
Arguments lit s%_string.

(** ** Python values produced by [json.loads] *)

(** A JSON float is kept as its literal text ([NaN], [Infinity],
    [-Infinity] or a decimal literal): IEEE-754 arithmetic is not modelled,
    the few float operations the code can reach are parameters below. *)
Inductive pyval :=
| PNone
| PBool (b : bool)
| PInt (z : Z)
| PFloat (lexeme : pystr)
| PStr (s : pystr)
| PList (items : list pyval)
| PDict (kv : list (pystr * pyval)).

(** A Python dict as an insertion-ordered association list with unique
    keys. *)
Fixpoint dict_get (k : pystr) (kv : list (pystr * pyval)) : option pyval :=
  match kv with
  | [] => None
  | (k', v) :: r => if list_eq_dec Z.eq_dec k k' then Some v else dict_get k r
  end.

(** [d[k] = v]: an existing key keeps its position, a new key goes last. *)
Fixpoint dict_set (k : pystr) (v : pyval) (kv : list (pystr * pyval))
  : list (pystr * pyval) :=
  match kv with
  | [] => [(k, v)]
  | (k', v') :: r =>
      if list_eq_dec Z.eq_dec k k' then (k', v) :: r else (k', v') :: dict_set k v r
  end.

Definition dict_mem (k : pystr) (kv : list (pystr * pyval)) : bool :=
  match dict_get k kv with Some _ => true | None => false end.

(** ** Unicode helpers *)

(** [str.isspace] for one code point (Py_UNICODE_ISSPACE): the ASCII
    whitespace of CPython's table and the non-ASCII characters of bidi class
    WS, B, S or category Zs. *)
Definition is_space (c : Z) : bool :=
  ((9 <=? c) && (c <=? 13)) || ((28 <=? c) && (c <=? 32)) ||
  (c =? 133) || (c =? 160) || (c =? 5760) ||
  ((8192 <=? c) && (c <=? 8202)) || (c =? 8232) || (c =? 8233) ||
  (c =? 8239) || (c =? 8287) || (c =? 12288).

Fixpoint lstrip (s : pystr) : pystr :=
  match s with
  | c :: r => if is_space c then lstrip r else s
  | [] => []
  end.

(** [str.strip()] *)
Definition strip (s : pystr) : pystr := rev (lstrip (rev (lstrip s))).

(** [s.replace(" ", "_")] *)
Definition replace_space (s : pystr) : pystr :=
  map (fun c => if c =? 32 then 95 else c) s.

(** [s.startswith(p)] *)
Fixpoint startswith (s p : pystr) : bool :=
  match p, s with
  | [], _ => true
  | c :: p', d :: s' => (c =? d) && startswith s' p'
  | _ :: _, [] => false
  end.

(** [c in "._-"] for one character. *)
Definition in_dot_us_dash (c : Z) : bool := (c =? 46) || (c =? 95) || (c =? 45).

(** Python's [str.isalnum] reads the Unicode database; it is a parameter of
    the functions that use it. *)
Section SafeFilename.
Variable is_alnum : Z -> bool.

(** [safe_filename(name)] (app.py, line 86) *)
Definition safe_filename (name : pystr) : pystr :=
  map (fun c => if is_alnum c || in_dot_us_dash c then c else 95) name.
End SafeFilename.

(** [str.isalnum] restricted to ASCII, an instance for concrete runs. *)
Definition ascii_isalnum (c : Z) : bool :=
  ((48 <=? c) && (c <=? 57)) || ((65 <=? c) && (c <=? 90)) || ((97 <=? c) && (c <=? 122)).

(** ** Python semantics of JSON values *)

(** The float operations the handlers can reach, on the literal a JSON float
    was decoded from: [bool(x)], [x == y] and [x == n]. *)
Record float_ops := {
  float_truthy : pystr -> bool;
  float_eq_float : pystr -> pystr -> bool;
  float_eq_int : pystr -> Z -> bool
}.

Section PySemantics.
Variable fo : float_ops.

(** [bool(v)] *)
Definition py_truthy (v : pyval) : bool :=
  match v with
  | PNone => false
  | PBool b => b
  | PInt z => negb (z =? 0)
  | PFloat x => float_truthy fo x
  | PStr s => match s with [] => false | _ => true end
  | PList l => match l with [] => false | _ => true end
  | PDict kv => match kv with [] => false | _ => true end
  end.

(** [a or b] *)
Definition py_or (a b : pyval) : pyval := if py_truthy a then a else b.

(** [bool] is a subclass of [int] in Python. *)
Definition py_int_value (v : pyval) : option Z :=
  match v with
  | PBool b => Some (if b then 1 else 0)
  | PInt z => Some z
  | _ => None
  end.

(** [a == b] *)
Fixpoint py_eq (a b : pyval) {struct a} : bool :=
  match a, b with
  | PNone, PNone => true
  | PStr s, PStr t => if list_eq_dec Z.eq_dec s t then true else false
  | PFloat x, PFloat y => float_eq_float fo x y
  | PFloat x, _ => match py_int_value b with Some n => float_eq_int fo x n | None => false end
  | PList xs, PList ys =>
      (fix go (xs : list pyval) (ys : list pyval) : bool :=
         match xs, ys with
         | [], [] => true
         | x :: xs', y :: ys' => py_eq x y && go xs' ys'
         | _, _ => false
         end) xs ys
  | PDict xs, PDict ys =>
      (Nat.eqb (List.length xs) (List.length ys)) &&
      (fix go (xs : list (pystr * pyval)) : bool :=
         match xs with
         | [] => true
         | (k, v) :: xs' =>
             match dict_get k ys with
             | Some w => py_eq v w && go xs'
             | None => false
             end
         end) xs
  | _, PFloat y => match py_int_value a with Some n => float_eq_int fo y n | None => false end
  | _, _ =>
      match py_int_value a, py_int_value b with
      | Some m, Some n => m =? n
      | _, _ => false
      end
  end.
End PySemantics.

Fixpoint is_prefix (p s : pystr) : bool :=
  match p, s with
  | [], _ => true
  | c :: p', d :: s' => (c =? d) && is_prefix p' s'
  | _, _ => false
  end.

Fixpoint is_substring (needle s : pystr) : bool :=
  is_prefix needle s ||
  match s with [] => false | _ :: s' => is_substring needle s' end.

(** [needle in v] for a [str] needle; [None] is the [TypeError] of a
    container that does not support [in]. *)
Definition py_contains_str (needle : pystr) (v : pyval) : option bool :=
  match v with
  | PDict kv => Some (dict_mem needle kv)
  | PList l =>
      Some (existsb (fun x => match x with
                              | PStr s => if list_eq_dec Z.eq_dec s needle then true else false
                              | _ => false
                              end) l)
  | PStr s => Some (is_substring needle s)
  | _ => None
  end.

(** [d.get(key)] on a dict decoded from JSON (its keys are strings); [None]
    is the [TypeError] of an unhashable key. *)
Definition dict_get_any (key : pyval) (kv : list (pystr * pyval)) : option (option pyval) :=
  match key with
  | PStr k => Some (dict_get k kv)
  | PList _ | PDict _ => None
  | _ => Some None
  end.

(** ** UTF-8 *)

(** [str.encode("utf-8")]; surrogates raise [UnicodeEncodeError]. *)
Definition utf8_encode_char (c : Z) : option bytes :=
  if c <? 128 then Some [c]
  else if c <? 2048 then
    Some [Z.lor 192 (Z.shiftr c 6); Z.lor 128 (Z.land c 63)]
  else if (55296 <=? c) && (c <=? 57343) then None
  else if c <? 65536 then
    Some [Z.lor 224 (Z.shiftr c 12); Z.lor 128 (Z.land (Z.shiftr c 6) 63);
          Z.lor 128 (Z.land c 63)]
  else
    Some [Z.lor 240 (Z.shiftr c 18); Z.lor 128 (Z.land (Z.shiftr c 12) 63);
          Z.lor 128 (Z.land (Z.shiftr c 6) 63); Z.lor 128 (Z.land c 63)].

Fixpoint utf8_encode (s : pystr) : option bytes :=
  match s with
  | [] => Some []
  | c :: r =>
      match utf8_encode_char c, utf8_encode r with
      | Some b, Some bs => Some (b ++ bs)
      | _, _ => None
      end
  end.

Definition in_range (lo hi b : Z) : bool := (lo <=? b) && (b <=? hi).

Definition cont (acc b : Z) : Z := Z.lor (Z.shiftl acc 6) (Z.land b 63).

(** [bytes.decode("utf-8")] (strict); [None] is [UnicodeDecodeError]. *)
Fixpoint utf8_decode (bs : bytes) : option pystr :=
  match bs with
  | [] => Some []
  | b0 :: r =>
      if b0 <? 128 then option_map (cons b0) (utf8_decode r)
      else if in_range 194 223 b0 then
        match r with
        | b1 :: r' =>
            if in_range 128 191 b1
            then option_map (cons (cont (Z.land b0 31) b1)) (utf8_decode r')
            else None
        | [] => None
        end
      else if in_range 224 239 b0 then
        match r with
        | b1 :: b2 :: r' =>
            let lo := if b0 =? 224 then 160 else 128 in
            let hi := if b0 =? 237 then 159 else 191 in
            if in_range lo hi b1 && in_range 128 191 b2
            then option_map (cons (cont (cont (Z.land b0 15) b1) b2)) (utf8_decode r')
            else None
        | _ => None
        end
      else if in_range 240 244 b0 then
        match r with
        | b1 :: b2 :: b3 :: r' =>
            let lo := if b0 =? 240 then 144 else 128 in
            let hi := if b0 =? 244 then 143 else 191 in
            if in_range lo hi b1 && in_range 128 191 b2 && in_range 128 191 b3
            then option_map (cons (cont (cont (cont (Z.land b0 7) b1) b2) b3))
                            (utf8_decode r')
            else None
        | _ => None
        end
      else None
  end.

(** ** [json.loads]: CPython's C scanner (Modules/_json.c), strict mode *)

(** [' \t\n\r'] *)
Definition is_ws (c : Z) : bool := (c =? 32) || (c =? 9) || (c =? 10) || (c =? 13).

Fixpoint skip_ws (s : pystr) : pystr :=
  match s with
  | c :: r => if is_ws c then skip_ws r else s
  | [] => []
  end.

Definition is_digit (c : Z) : bool := in_range 48 57 c.

Definition hex_val (c : Z) : option Z :=
  if in_range 48 57 c then Some (c - 48)
  else if in_range 97 102 c then Some (c - 87)
  else if in_range 65 70 c then Some (c - 55)
  else None.

(** Four hex digits, [c <<= 4; c |= digit] for each. *)
Definition hex4 (a b c d : Z) : option Z :=
  match hex_val a, hex_val b, hex_val c, hex_val d with
  | Some x, Some y, Some z, Some w => Some (((x * 16 + y) * 16 + z) * 16 + w)
  | _, _, _, _ => None
  end.

Definition is_high_surrogate (u : Z) : bool := in_range 55296 56319 u.
Definition is_low_surrogate (u : Z) : bool := in_range 56320 57343 u.

(** [Py_UNICODE_JOIN_SURROGATES] *)
Definition join_surrogates (hi lo : Z) : Z :=
  Z.lor (Z.shiftl (Z.land hi 1023) 10) (Z.land lo 1023) + 65536.

(** The one-character escapes: quote, backslash, slash, b, f, n, r, t. *)
Definition unescape (e : Z) : option Z :=
  if e =? 34 then Some 34 else if e =? 92 then Some 92 else if e =? 47 then Some 47
  else if e =? 98 then Some 8 else if e =? 102 then Some 12
  else if e =? 110 then Some 10 else if e =? 114 then Some 13
  else if e =? 116 then Some 9 else None.

Definition scons (c : Z) (r : option (pystr * pystr)) : option (pystr * pystr) :=
  match r with Some (cs, rest) => Some (c :: cs, rest) | None => None end.

(** [scanstring_unicode], from just after the opening quote: the decoded
    string and the text after the closing quote. *)
Fixpoint scanstring (s : pystr) : option (pystr * pystr) :=
  match s with
  | [] => None
  | c :: t =>
      if c =? 34 then Some ([], t)
      else if c =? 92 then
        match t with
        | [] => None
        | e :: t1 =>
            if e =? 117 then
              match t1 with
              | h1 :: h2 :: h3 :: h4 :: t2 =>
                  match hex4 h1 h2 h3 h4 with
                  | None => None
                  | Some u =>
                      if is_high_surrogate u then
                        match t2 with
                        | x1 :: x2 :: g1 :: g2 :: g3 :: g4 :: t3 =>
                            if (x1 =? 92) && (x2 =? 117) then
                              match hex4 g1 g2 g3 g4 with
                              | None => None
                              | Some u2 =>
                                  if is_low_surrogate u2
                                  then scons (join_surrogates u u2) (scanstring t3)
                                  else scons u (scanstring t2)
                              end
                            else scons u (scanstring t2)
                        | _ => scons u (scanstring t2)
                        end
                      else scons u (scanstring t2)
                  end
              | _ => None
              end
            else
              match unescape e with
              | Some c' => scons c' (scanstring t1)
              | None => None
              end
        end
      else if c <=? 31 then None
      else scons c (scanstring t)
  end.

Fixpoint span_digits (s : pystr) : pystr * pystr :=
  match s with
  | c :: r => if is_digit c then let (d, r') := span_digits r in (c :: d, r') else ([], s)
  | [] => ([], [])
  end.

Definition digits_value (ds : pystr) : Z :=
  fold_left (fun acc d => acc * 10 + (d - 48)) ds 0.

(** CPython's limit on the digits of an int/str conversion. *)
Definition max_str_digits : nat := 4300.

(** The optional fraction [.digits]. *)
Definition match_frac (s : pystr) : option (pystr * pystr) :=
  match s with
  | c :: ((d :: _) as r) =>
      if (c =? 46) && is_digit d then let (fs, r') := span_digits r in Some (c :: fs, r')
      else None
  | _ => None
  end.

(** The optional exponent [e[+-]digits]; without digits it backtracks. *)
Definition match_exp (s : pystr) : option (pystr * pystr) :=
  match s with
  | e :: r =>
      if (e =? 101) || (e =? 69) then
        let '(sg, r1) :=
          match r with
          | c :: ((_ :: _) as r') => if (c =? 45) || (c =? 43) then ([c], r') else ([], r)
          | _ => ([], r)
          end in
        let (ds, r2) := span_digits r1 in
        match ds with
        | [] => None
        | _ => Some (e :: sg ++ ds, r2)
        end
      else None
  | [] => None
  end.

(** [_match_number_unicode] *)
Definition match_number (s : pystr) : option (pyval * pystr) :=
  let '(sign, s1) :=
    match s with
    | c :: r => if c =? 45 then ([45], r) else ([], s)
    | [] => ([], s)
    end in
  let intpart :=
    match s1 with
    | c :: r =>
        if in_range 49 57 c then let (ds, r') := span_digits r in Some (c :: ds, r')
        else if c =? 48 then Some ([c], r)
        else None
    | [] => None
    end in
  match intpart with
  | None => None
  | Some (ip, r1) =>
      let '(fp, r2) := match match_frac r1 with Some p => p | None => ([], r1) end in
      let '(ep, r3) := match match_exp r2 with Some p => p | None => ([], r2) end in
      match fp, ep with
      | [], [] =>
          if Nat.ltb max_str_digits (List.length ip) then None
          else Some (PInt (if Nat.eqb (List.length sign) 0 then digits_value ip
                           else - digits_value ip), r1)
      | _, _ => Some (PFloat (sign ++ ip ++ fp ++ ep), r3)
      end
  end.

(** [s] with the prefix [p] removed, when it has it. *)
Fixpoint strip_prefix (p s : pystr) : option pystr :=
  match p, s with
  | [], _ => Some s
  | c :: p', d :: s' => if c =? d then strip_prefix p' s' else None
  | _, _ => None
  end.

(** The named constants of [scan_once_unicode], tried on the first
    character. *)
Definition match_constant (s : pystr) : option (pyval * pystr) :=
  match s with
  | [] => None
  | c :: _ =>
      let try_lit (p : string) v :=
        match strip_prefix (lit p) s with Some r => Some (v, r) | None => None end in
      if c =? 110 then try_lit "null"%string PNone
      else if c =? 116 then try_lit "true"%string (PBool true)
      else if c =? 102 then try_lit "false"%string (PBool false)
      else if c =? 78 then try_lit "NaN"%string (PFloat (lit "NaN"))
      else if c =? 73 then try_lit "Infinity"%string (PFloat (lit "Infinity"))
      else if c =? 45 then try_lit "-Infinity"%string (PFloat (lit "-Infinity"))
      else None
  end.

(** [scan_once_unicode], [_parse_object_unicode] and
    [_parse_array_unicode]; [fuel] bounds the nesting (each level reads at
    least one character, so the length of the input plus one suffices). *)
Fixpoint scan_once (fuel : nat) (s : pystr) {struct fuel} : option (pyval * pystr) :=
  match fuel with
  | O => None
  | S f =>
      match s with
      | [] => None
      | c :: t =>
          if c =? 34 then
            match scanstring t with Some (str, r) => Some (PStr str, r) | None => None end
          else if c =? 123 then
            match skip_ws t with
            | c1 :: r1 => if c1 =? 125 then Some (PDict [], r1) else parse_object f [] (c1 :: r1)
            | [] => None
            end
          else if c =? 91 then
            match skip_ws t with
            | c1 :: r1 => if c1 =? 93 then Some (PList [], r1) else parse_array f [] (c1 :: r1)
            | [] => None
            end
          else match match_constant s with
               | Some p => Some p
               | None => match_number s
               end
      end
  end
with parse_object (fuel : nat) (acc : list (pystr * pyval)) (s : pystr) {struct fuel}
  : option (pyval * pystr) :=
  match fuel with
  | O => None
  | S f =>
      match s with
      | c :: t =>
          if c =? 34 then
            match scanstring t with
            | None => None
            | Some (key, r) =>
                match skip_ws r with
                | c2 :: r2 =>
                    if c2 =? 58 then
                      match scan_once f (skip_ws r2) with
                      | None => None
                      | Some (v, r3) =>
                          let acc' := dict_set key v acc in
                          match skip_ws r3 with
                          | c3 :: r4 =>
                              if c3 =? 125 then Some (PDict acc', r4)
                              else if c3 =? 44 then parse_object f acc' (skip_ws r4)
                              else None
                          | [] => None
                          end
                      end
                    else None
                | [] => None
                end
            end
          else None
      | [] => None
      end
  end
with parse_array (fuel : nat) (acc : list pyval) (s : pystr) {struct fuel}
  : option (pyval * pystr) :=
  match fuel with
  | O => None
  | S f =>
      match scan_once f s with
      | None => None
      | Some (v, r) =>
          match skip_ws r with
          | c :: r' =>
              if c =? 93 then Some (PList (acc ++ [v]), r')
              else if c =? 44 then parse_array f (acc ++ [v]) (skip_ws r')
              else None
          | [] => None
          end
      end
  end.

(** [json.loads(s)] for a [str]; [None] is the raised [JSONDecodeError] (or
    [ValueError]).  Python's recursion limit on deep nesting is not
    modelled. *)
Definition json_loads (s : pystr) : option pyval :=
  if startswith s [65279] then None
  else
    match scan_once (S (List.length s)) (skip_ws s) with
    | Some (v, r) => match skip_ws r with [] => Some v | _ => None end
    | None => None
    end.

(** ** [json.dumps(obj, indent=2)]: the pure-Python encoder
    ([_make_iterencode]) with [ensure_ascii=True], separators [","] and
    [": "] *)

(** Decimal digits of [n >= 0], least significant first; [fuel] bounds their
    number. *)
Fixpoint digits_rev (fuel : nat) (n : Z) : pystr :=
  match fuel with
  | O => []
  | S f => if n <? 10 then [48 + n] else (48 + n mod 10) :: digits_rev f (n / 10)
  end.

Definition decimal_digits (n : Z) : pystr :=
  rev (digits_rev (S (Z.to_nat (Z.log2 n))) n).

(** [int.__repr__]; more than [max_str_digits] digits raise [ValueError]. *)
Definition int_repr (z : Z) : option pystr :=
  let ds := decimal_digits (Z.abs z) in
  if Nat.ltb max_str_digits (List.length ds) then None
  else Some (if z <? 0 then 45 :: ds else ds).

Definition hex_digit (n : Z) : Z := if n <? 10 then 48 + n else 87 + n.

(** ['\\u{0:04x}'.format(n)] *)
Definition u_escape (n : Z) : pystr :=
  [92; 117; hex_digit (Z.shiftr n 12); hex_digit (Z.land (Z.shiftr n 8) 15);
   hex_digit (Z.land (Z.shiftr n 4) 15); hex_digit (Z.land n 15)].

(** One character of [py_encode_basestring_ascii]. *)
Definition encode_char (c : Z) : pystr :=
  if c =? 92 then [92; 92]
  else if c =? 34 then [92; 34]
  else if c =? 8 then [92; 98]
  else if c =? 12 then [92; 102]
  else if c =? 10 then [92; 110]
  else if c =? 13 then [92; 114]
  else if c =? 9 then [92; 116]
  else if in_range 32 126 c then [c]
  else if c <? 65536 then u_escape c
  else
    let n := c - 65536 in
    u_escape (Z.lor 55296 (Z.land (Z.shiftr n 10) 1023)) ++
    u_escape (Z.lor 56320 (Z.land n 1023)).

Definition encode_basestring_ascii (s : pystr) : pystr :=
  34 :: flat_map encode_char s ++ [34].

(** ['\n' + '  ' * level] *)
Definition newline_indent (level : nat) : pystr := 10 :: repeat 32 (2 * level).

Fixpoint join (sep : pystr) (chunks : list pystr) : pystr :=
  match chunks with
  | [] => []
  | [c] => c
  | c :: r => c ++ sep ++ join sep r
  end.

(** The text of [v] at nesting [level].  A float is written as the literal
    it was decoded from ([float.__repr__] is not modelled). *)
Fixpoint dumps_at (level : nat) (v : pyval) {struct v} : option pystr :=
  match v with
  | PNone => Some (lit "null")
  | PBool true => Some (lit "true")
  | PBool false => Some (lit "false")
  | PInt z => int_repr z
  | PFloat x => Some x
  | PStr s => Some (encode_basestring_ascii s)
  | PList [] => Some (lit "[]")
  | PList items =>
      match (fix go (l : list pyval) : option (list pystr) :=
               match l with
               | [] => Some []
               | x :: r =>
                   match dumps_at (S level) x, go r with
                   | Some a, Some b => Some (a :: b)
                   | _, _ => None
                   end
               end) items with
      | Some chunks =>
          Some (91 :: newline_indent (S level) ++
                join (44 :: newline_indent (S level)) chunks ++
                newline_indent level ++ [93])
      | None => None
      end
  | PDict [] => Some (lit "{}")
  | PDict kv =>
      match (fix go (l : list (pystr * pyval)) : option (list pystr) :=
               match l with
               | [] => Some []
               | (k, x) :: r =>
                   match dumps_at (S level) x, go r with
                   | Some a, Some b => Some ((encode_basestring_ascii k ++ [58; 32] ++ a) :: b)
                   | _, _ => None
                   end
               end) kv with
      | Some chunks =>
          Some (123 :: newline_indent (S level) ++
                join (44 :: newline_indent (S level)) chunks ++
                newline_indent level ++ [125])
      | None => None
      end
  end.

Definition json_dumps (v : pyval) : option pystr := dumps_at 0 v.

(** ** Configuration (environment variables, read once at start-up) *)

Record config := {
  GITHUB_OWNER : pystr;
  GITHUB_REPO : pystr;
  USERS_FILE_PATH : pystr;
  NOTES_FOLDER : pystr;
  MAX_FILE_SIZE : Z
}.

Definition default_config : config := {|
  GITHUB_OWNER := lit "akmaurya321";
  GITHUB_REPO := lit "NotesViewer";
  USERS_FILE_PATH := lit "users.json";
  NOTES_FOLDER := lit "notes";
  MAX_FILE_SIZE := 90 * 1024 * 1024
|}.

(** ** The GitHub Contents API, as seen by the [requests] calls *)

(** The JSON of a 200 answer to [GET /contents/{path}]: a file (its [sha]
    and its base64-decoded [content]) or a directory listing. *)
Inductive gh_data :=
| FileData (sha : pystr) (content : bytes)
| DirData (items : pyval).

(** [GetStatus] carries a status other than 200; [GetFail] is an exception
    raised by [requests] itself. *)
Inductive get_response :=
| GetOk (data : gh_data)
| GetStatus (status : Z) (text : pystr)
| GetFail.

(** The answer to a PUT or DELETE: status, [r.json()] ([None] when the body
    is not JSON) and [r.text]. *)
Inductive write_response :=
| WriteResp (status : Z) (body : option pyval) (text : pystr)
| WriteFail.

(** The remote repository, a state [st] of any type: GET reads it, PUT
    (path, content, message, optional sha) and DELETE (path, message, sha)
    update it. *)
Record github (st : Type) := {
  gh_get : pystr -> st -> get_response;
  gh_put : pystr -> bytes -> pystr -> option pystr -> st -> write_response * st;
  gh_delete : pystr -> pystr -> pystr -> st -> write_response * st
}.
Arguments gh_get {st}. Arguments gh_put {st}. Arguments gh_delete {st}.

(** The calls made to the API, in order. *)
Inductive call :=
| CallGet (path : pystr)
| CallPut (path : pystr)
| CallDelete (path : pystr).

Record world (st : Type) := { store : st; calls : list call }.
Arguments store {st}. Arguments calls {st}.

(** A raised Python exception, with [str(e)]; built-in errors are named by
    their class. *)
Inductive exn := Exn (msg : pystr).

(** A handler's answer: [jsonify(body)] with a status, or the 500 page
    Flask renders for an uncaught exception. *)
Inductive response :=
| Json (status : Z) (body : pyval)
| InternalError.

(** ** State and exception monad *)

Definition M (st A : Type) := world st -> (exn + A) * world st.

Definition ret {st A} (a : A) : M st A := fun w => (inr a, w).
Definition bind {st A B} (m : M st A) (k : A -> M st B) : M st B :=
  fun w => match m w with
           | (inl e, w') => (inl e, w')
           | (inr a, w') => k a w'
           end.
Definition raise {st A} (e : exn) : M st A := fun w => (inl e, w).
(** A built-in exception raised by the library; its class name stands for
    its message, which is not modelled. *)
Definition py_error {st A} (cls : string) : M st A := raise (Exn (lit cls)).

(** [try: m except Exception as e: h(e)] *)
Definition try_except {st A} (m : M st A) (h : exn -> M st A) : M st A :=
  fun w => match m w with
           | (inl e, w') => h e w'
           | (inr a, w') => (inr a, w')
           end.

Notation "x <- m ;; k" := (bind m (fun x => k))
  (at level 61, m at next level, right associativity).

(** A handler run by Flask. *)
Definition run {st} (m : M st response) (w : world st) : response * world st :=
  match m w with
  | (inl _, w') => (InternalError, w')
  | (inr r, w') => (r, w')
  end.

Definition str_int (z : Z) : pystr :=
  match int_repr z with Some s => s | None => [] end.

Definition kv_str (k v : string) : pystr * pyval := (lit k, PStr (lit v)).

Definition err {st} (status : Z) (msg : string) : M st response :=
  ret (Json status (PDict [kv_str "error" msg])).

Definition err_detail {st} (status : Z) (msg : string) (e : exn) : M st response :=
  let 'Exn d := e in
  ret (Json status (PDict [kv_str "error" msg; (lit "detail", PStr d)])).

(** ** app.py: GitHub helpers, users registry and endpoints *)

Section Backend.
Context {st : Type} (gh : github st) (cfg : config).

Definition gh_get_m (path : pystr) : M st get_response :=
  fun w => (inr (gh_get gh path (store w)),
            {| store := store w; calls := calls w ++ [CallGet path] |}).

Definition gh_put_m (path : pystr) (b : bytes) (message : pystr) (sha : option pystr)
  : M st write_response :=
  fun w => let (r, s') := gh_put gh path b message sha (store w) in
           (inr r, {| store := s'; calls := calls w ++ [CallPut path] |}).

Definition gh_delete_m (path message sha : pystr) : M st write_response :=
  fun w => let (r, s') := gh_delete gh path message sha (store w) in
           (inr r, {| store := s'; calls := calls w ++ [CallDelete path] |}).

Definition gh_error (verb : string) (status : Z) (text : pystr) : exn :=
  Exn (lit ("GitHub " ++ verb ++ " error ")%string ++ str_int status ++ lit ": " ++ text).

(** [get_repo_file(path)]: [Some (sha, content)], or [None] on 404. *)
Definition get_repo_file (path : pystr) : M st (option (pystr * pystr)) :=
  r <- gh_get_m path ;;
  match r with
  | GetOk (FileData sha b) =>
      match utf8_decode b with
      | Some content => ret (Some (sha, content))
      | None => py_error "UnicodeDecodeError"
      end
  | GetOk (DirData _) => py_error "TypeError"
  | GetStatus status text =>
      if status =? 404 then ret None else raise (gh_error "GET" status text)
  | GetFail => py_error "ConnectionError"
  end.

(** [put_repo_file(path, content_bytes, message, sha)]; [if sha:] leaves an
    empty sha out of the payload. *)
Definition put_repo_file (path : pystr) (content : bytes) (message : pystr)
  (sha : option pystr) : M st pyval :=
  let sha' := match sha with Some (_ :: _) => sha | _ => None end in
  r <- gh_put_m path content message sha' ;;
  match r with
  | WriteResp status body text =>
      if (status =? 200) || (status =? 201) then
        match body with Some j => ret j | None => py_error "JSONDecodeError" end
      else raise (gh_error "PUT" status text)
  | WriteFail => py_error "ConnectionError"
  end.

(** [delete_repo_file(path, sha)] *)
Definition delete_repo_file (path sha : pystr) : M st pyval :=
  r <- gh_delete_m path (lit "delete " ++ path) sha ;;
  match r with
  | WriteResp status body text =>
      if (status =? 200) || (status =? 204) then
        match body with Some j => ret j | None => py_error "JSONDecodeError" end
      else raise (gh_error "DELETE" status text)
  | WriteFail => py_error "ConnectionError"
  end.

(** [load_users_registry()]: [(registry["sha"], registry["data"])]. *)
Definition load_users_registry : M st (option pystr * pyval) :=
  rec <- get_repo_file (USERS_FILE_PATH cfg) ;;
  match rec with
  | None => ret (None, PDict [])
  | Some (sha, content) =>
      match json_loads content with
      | Some data => ret (Some sha, data)
      | None => ret (Some sha, PDict [])
      end
  end.

(** [json.dumps(users_dict, indent=2).encode("utf-8")]; [None] is the
    [ValueError] either step may raise. *)
Definition registry_payload (users : pyval) : option bytes :=
  match json_dumps users with
  | Some text => utf8_encode text
  | None => None
  end.

(** [save_users_registry(users_dict, sha)] *)
Definition save_users_registry (users : pyval) (sha : option pystr) : M st pyval :=
  match registry_payload users with
  | None => py_error "ValueError"
  | Some payload =>
      put_repo_file (USERS_FILE_PATH cfg) payload (lit "update " ++ USERS_FILE_PATH cfg) sha
  end.

(** Python's [str()] of a JSON value other than a string (its repr
    conventions) and [str.isalnum] are parameters. *)
Context (fo : float_ops) (str_of : pyval -> pystr) (is_alnum : Z -> bool).

(** [str(v)] *)
Definition py_str (v : pyval) : pystr := match v with PStr s => s | _ => str_of v end.

Definition or_none (o : option pyval) : pyval := match o with Some v => v | None => PNone end.

(** [needle in v] *)
Definition contains (needle : pystr) (v : pyval) : M st bool :=
  match py_contains_str needle v with Some b => ret b | None => py_error "TypeError" end.

(** [d.get(k)] with a string key: [d] must be a dict. *)
Definition get_m (d : pyval) (k : pystr) : M st (option pyval) :=
  match d with PDict kv => ret (dict_get k kv) | _ => py_error "AttributeError" end.

(** [d.get(key)] with a key of any JSON type. *)
Definition get_any_m (d : pyval) (key : pyval) : M st (option pyval) :=
  match d with
  | PDict kv =>
      match dict_get_any key kv with Some r => ret r | None => py_error "TypeError" end
  | _ => py_error "AttributeError"
  end.

(** [d[k] = v] *)
Definition set_item (d : pyval) (k : pystr) (v : pyval) : M st pyval :=
  match d with PDict kv => ret (PDict (dict_set k v kv)) | _ => py_error "TypeError" end.

Definition int_str_m (z : Z) : M st pystr :=
  match int_repr z with Some s => ret s | None => py_error "ValueError" end.

(** GET /check/<userId> *)
Definition check_user (userId : pystr) : M st response :=
  let userId := strip userId in
  registry <- load_users_registry ;;
  exists_ <- contains userId (snd registry) ;;
  ret (Json 200 (PDict [(lit "available", PBool (negb exists_))])).

(** The record [register] stores for a user. *)
Definition user_record (token display : pystr) (createdAt : Z) : pyval :=
  PDict [(lit "token", PStr token); (lit "display", PStr display);
         (lit "createdAt", PInt createdAt)].

(** POST /register: [body] is [request.get_json(force=True, silent=True)],
    [token] the [uuid.uuid4().hex] drawn and [now_ms] the clock
    [int(time.time() * 1000)]. *)
Definition register (body : option pyval) (token : pystr) (now_ms : Z) : M st response :=
  let body := py_or fo (or_none body) (PDict []) in
  u <- get_m body (lit "userId") ;;
  let userId := strip (py_str (py_or fo (or_none u) (PStr []))) in
  dn <- get_m body (lit "displayName") ;;
  let display := strip (py_str (py_or fo (or_none dn) (PStr []))) in
  match userId with
  | [] => err 400 "userId required"
  | _ =>
      let userId := replace_space userId in
      if Nat.ltb 64 (List.length userId) then err 400 "userId too long"
      else
        registry <- load_users_registry ;;
        let users := snd registry in
        taken <- contains userId users ;;
        if taken then err 409 "userId already taken"
        else
          users <- set_item users userId (user_record token display now_ms) ;;
          r <- try_except (_ <- save_users_registry users (fst registry) ;; ret None)
                          (fun e => ret (Some e)) ;;
          match r with
          | Some e => err_detail 500 "Failed to write registry" e
          | None =>
              ret (Json 200 (PDict [(lit "success", PBool true); (lit "userId", PStr userId);
                                    (lit "token", PStr token)]))
          end
  end.

(** A multipart file part: [f.filename] and the bytes [f.read()] returns. *)
Record upload_file := { filename : option pystr; file_bytes : bytes }.

(** [str(request.form.get(name) or "")] for a form field. *)
Definition form_str (v : option pystr) : pystr := match v with Some s => s | None => [] end.

Definition invalid_credentials : M st response := err 403 "Invalid userId or token".

(** The public URL of a repository path (GitHub Pages). *)
Definition public_url (repo_path : pystr) : pystr :=
  lit "https://" ++ GITHUB_OWNER cfg ++ lit ".github.io/" ++ GITHUB_REPO cfg ++ [47] ++ repo_path.

(** POST /upload *)
Definition upload (file : option upload_file) (form_userId form_token : option pystr)
  (now_ms : Z) : M st response :=
  match file with
  | None => err 400 "No file uploaded"
  | Some f =>
      let userId := strip (form_str form_userId) in
      let token := strip (form_str form_token) in
      match userId, token with
      | [], _ | _, [] => err 400 "userId and token required"
      | _, _ =>
          registry <- load_users_registry ;;
          entry <- get_m (snd registry) userId ;;
          match entry with
          | None => invalid_credentials
          | Some e =>
              if negb (py_truthy fo e) then invalid_credentials
              else
                tok <- get_m e (lit "token") ;;
                if negb (py_eq fo (or_none tok) (PStr token)) then invalid_credentials
                else
                  let filename := safe_filename is_alnum
                                    (match filename f with
                                     | Some ((_ :: _) as n) => n
                                     | _ => lit "file"
                                     end) in
                  timestamp <- int_str_m now_ms ;;
                  let safe_name := timestamp ++ [95] ++ filename in
                  let repo_path := NOTES_FOLDER cfg ++ [47] ++ userId ++ [47] ++ safe_name in
                  let size := Z.of_nat (List.length (file_bytes f)) in
                  if size >? MAX_FILE_SIZE cfg then
                    ret (Json 413 (PDict [(lit "error",
                           PStr (lit "File too large. Max allowed is " ++
                                 str_int (MAX_FILE_SIZE cfg) ++ lit " bytes"))]))
                  else
                    r <- try_except
                           (_ <- put_repo_file repo_path (file_bytes f)
                                  (lit "upload " ++ safe_name) None ;; ret None)
                           (fun e => ret (Some e)) ;;
                    match r with
                    | Some e => err_detail 500 "GitHub upload failed" e
                    | None =>
                        ret (Json 200 (PDict [(lit "success", PBool true);
                                              (lit "url", PStr (public_url repo_path));
                                              (lit "path", PStr repo_path)]))
                    end
          end
      end
  end.

(** [for it in v]: the items, keys or characters iterated. *)
Definition py_iter (v : pyval) : option (list pyval) :=
  match v with
  | PList l => Some l
  | PDict kv => Some (map (fun p => PStr (fst p)) kv)
  | PStr s => Some (map (fun c => PStr [c]) s)
  | _ => None
  end.

(** The loop of [list_user] over the directory entries. *)
Fixpoint list_files (items : list pyval) : M st (list pyval) :=
  match items with
  | [] => ret []
  | it :: r =>
      ty <- get_m it (lit "type") ;;
      if py_eq fo (or_none ty) (PStr (lit "file")) then
        name <- get_m it (lit "name") ;;
        path <- get_m it (lit "path") ;;
        dl <- get_m it (lit "download_url") ;;
        rest <- list_files r ;;
        ret (PDict [(lit "name", or_none name); (lit "path", or_none path);
                    (lit "download_url", or_none dl)] :: rest)
      else list_files r
  end.

Definition files_json (files : list pyval) : response :=
  Json 200 (PDict [(lit "success", PBool true); (lit "files", PList files)]).

(** GET /list/<userId> *)
Definition list_user (userId : pystr) : M st response :=
  let userId := strip userId in
  registry <- load_users_registry ;;
  present <- contains userId (snd registry) ;;
  if negb present then err 404 "Unknown userId"
  else
    r <- gh_get_m (NOTES_FOLDER cfg ++ [47] ++ userId) ;;
    match r with
    | GetOk (DirData items) =>
        match py_iter items with
        | Some l => files <- list_files l ;; ret (files_json files)
        | None => py_error "TypeError"
        end
    | GetOk (FileData _ _) =>
        (* the JSON of a file is a non-empty object: iterating it yields its
           keys, strings without [.get] *)
        py_error "AttributeError"
    | GetStatus status text =>
        if status =? 404 then ret (files_json [])
        else ret (Json 500 (PDict [kv_str "error" "GitHub list failed";
                                   (lit "detail", PStr text)]))
    | GetFail => py_error "ConnectionError"
    end.

(** The namespace prefix [f"{NOTES_FOLDER}/{userId}/"]. *)
Definition user_prefix (userId : pyval) : pystr :=
  NOTES_FOLDER cfg ++ [47] ++ py_str userId ++ [47].

(** POST /delete: [body] is [request.get_json(force=True, silent=True)]. *)
Definition delete_file (body : option pyval) : M st response :=
  let data := py_or fo (or_none body) (PDict []) in
  fp <- get_m data (lit "filePath") ;;
  uid <- get_m data (lit "userId") ;;
  tk <- get_m data (lit "token") ;;
  let filePath := or_none fp in
  let userId := or_none uid in
  let token := or_none tk in
  if negb (py_truthy fo filePath && py_truthy fo userId && py_truthy fo token) then
    err 400 "filePath, userId and token required"
  else
    registry <- load_users_registry ;;
    entry <- get_any_m (snd registry) userId ;;
    match entry with
    | None => invalid_credentials
    | Some e =>
        if negb (py_truthy fo e) then invalid_credentials
        else
          tok <- get_m e (lit "token") ;;
          if negb (py_eq fo (or_none tok) token) then invalid_credentials
          else
            match filePath with
            | PStr path =>
                if negb (startswith path (user_prefix userId)) then
                  err 403 "You can only delete your own files"
                else
                  rec <- get_repo_file path ;;
                  match rec with
                  | None => err 404 "File not found"
                  | Some (sha, _) =>
                      r <- try_except (_ <- delete_repo_file path sha ;; ret None)
                                      (fun e => ret (Some e)) ;;
                      match r with
                      | Some e => err_detail 500 "Delete failed" e
                      | None => ret (Json 200 (PDict [(lit "success", PBool true)]))
                      end
                  end
            | _ => py_error "AttributeError"
            end
    end.
End Backend.

(** * Notions of the specification *)

(** Strings the encoder and the decoder agree on. *)

Definition code_point (c : Z) : bool := in_range 0 1114111 c.

(** What the decoder makes of an encoded string: a high surrogate directly
    followed by a low surrogate comes back as one character. *)
Fixpoint join_pairs (s : pystr) : pystr :=
  match s with
  | a :: ((b :: r) as t) =>
      if is_high_surrogate a && is_low_surrogate b
      then join_surrogates a b :: join_pairs r
      else a :: join_pairs t
  | _ => s
  end.

(** The escape [\uXXXX] a text starts with, if any. *)
Definition next_escape (t : pystr) : option (option Z) :=
  match t with
  | x1 :: x2 :: g1 :: g2 :: g3 :: g4 :: _ =>
      if (x1 =? 92) && (x2 =? 117) then Some (hex4 g1 g2 g3 g4) else None
  | _ => None
  end.

(** What may follow a value in the indented layout: a comma or a newline. *)
Definition delim (s : pystr) : bool :=
  match s with c :: _ => (c =? 44) || (c =? 10) | [] => false end.

(** No high surrogate directly followed by a low one: the strings
    [join_pairs] leaves alone. *)
Fixpoint no_split_pair (s : pystr) : bool :=
  match s with
  | a :: ((b :: _) as t) => negb (is_high_surrogate a && is_low_surrogate b) && no_split_pair t
  | _ => true
  end.

Definition good_str (s : pystr) : bool := forallb code_point s && no_split_pair s.

(** An int [repr] accepts (at most [max_str_digits] digits). *)
Definition int_fits (z : Z) : bool := match int_repr z with Some _ => true | None => false end.

(** A registry record [{token, display, createdAt}]. *)
Record user_entry := { ue_token : pystr; ue_display : pystr; ue_createdAt : Z }.

Definition entry_value (e : user_entry) : pyval :=
  user_record (ue_token e) (ue_display e) (ue_createdAt e).

(** The registry dict of a list of (userId, record) pairs. *)
Definition registry_value (reg : list (pystr * user_entry)) : pyval :=
  PDict (map (fun p => (fst p, entry_value (snd p))) reg).

Definition key_eqb (k k' : pystr) : bool := if list_eq_dec Z.eq_dec k k' then true else false.

Fixpoint nodup_keys {A} (kv : list (pystr * A)) : bool :=
  match kv with
  | [] => true
  | (k, _) :: r => negb (existsb (fun p => key_eqb k (fst p)) r) && nodup_keys r
  end.

Definition good_entry (e : user_entry) : bool :=
  good_str (ue_token e) && good_str (ue_display e) && int_fits (ue_createdAt e).

Definition good_registry (reg : list (pystr * user_entry)) : bool :=
  nodup_keys reg && forallb (fun p => good_str (fst p) && good_entry (snd p)) reg.

Definition is_ascii (c : Z) : bool := in_range 0 127 c.

(** The loop of [dumps_at] over the items of a dict: the chunk
    [key: value] of each item. *)
Fixpoint dict_chunks (level : nat) (kv : list (pystr * pyval)) : option (list pystr) :=
  match kv with
  | [] => Some []
  | (k, x) :: r =>
      match dumps_at (S level) x, dict_chunks level r with
      | Some a, Some b => Some ((encode_basestring_ascii k ++ [58; 32] ++ a) :: b)
      | _, _ => None
      end
  end.

(** The HTTP status of a handler's answer; Flask's error page is a 500. *)
Definition response_status (r : response) : Z :=
  match r with Json status _ => status | InternalError => 500 end.

(** A directory entry of type [file], and the summary [list_user] makes of
    it. *)
Definition is_file_entry (kv : list (pystr * pyval)) : bool :=
  match dict_get (lit "type") kv with
  | Some (PStr s) => if list_eq_dec Z.eq_dec s (lit "file") then true else false
  | _ => false
  end.

Definition file_summary (kv : list (pystr * pyval)) : pyval :=
  PDict [(lit "name", or_none (dict_get (lit "name") kv));
         (lit "path", or_none (dict_get (lit "path") kv));
         (lit "download_url", or_none (dict_get (lit "download_url") kv))].


(** ** An in-memory repository, for the examples *)

(** Files by path, with their sha and content. *)
Definition memfs := list (pystr * (pystr * bytes)).

Fixpoint mem_lookup (path : pystr) (fs : memfs) : option (pystr * bytes) :=
  match fs with
  | [] => None
  | (p, x) :: r => if list_eq_dec Z.eq_dec path p then Some x else mem_lookup path r
  end.

Definition mem_remove (path : pystr) (fs : memfs) : memfs :=
  filter (fun e => if list_eq_dec Z.eq_dec path (fst e) then false else true) fs.

(** A content hash standing for the blob sha. *)
Definition mem_sha (b : bytes) : pystr :=
  str_int (fold_left (fun h x => (h * 31 + x) mod 1000000007) b 7).

Definition mem_write (path : pystr) (b : bytes) (fs : memfs) : memfs :=
  match mem_lookup path fs with
  | Some _ => map (fun e => if list_eq_dec Z.eq_dec path (fst e) then (path, (mem_sha b, b)) else e) fs
  | None => fs ++ [(path, (mem_sha b, b))]
  end.

(** The listing entry of a file under the directory [dir]. *)
Definition mem_entry (cfg : config) (dir : pystr) (e : pystr * (pystr * bytes)) : pyval :=
  PDict [(lit "type", PStr (lit "file"));
         (lit "name", PStr (skipn (S (List.length dir)) (fst e)));
         (lit "path", PStr (fst e));
         (lit "download_url", PStr (lit "https://raw.githubusercontent.com/" ++ GITHUB_OWNER cfg ++
                                    [47] ++ GITHUB_REPO cfg ++ lit "/main/" ++ fst e))].

Definition mem_get (cfg : config) (path : pystr) (fs : memfs) : get_response :=
  match mem_lookup path fs with
  | Some (sha, b) => GetOk (FileData sha b)
  | None =>
      match filter (fun e => startswith (fst e) (path ++ [47])) fs with
      | [] => GetStatus 404 (lit "Not Found")
      | es => GetOk (DirData (PList (map (mem_entry cfg path) es)))
      end
  end.

(** Updating a file needs its current sha. *)
Definition mem_put (path : pystr) (b : bytes) (message : pystr) (sha : option pystr) (fs : memfs)
  : write_response * memfs :=
  match mem_lookup path fs, sha with
  | Some (cur, _), Some s =>
      if list_eq_dec Z.eq_dec cur s then (WriteResp 200 (Some (PDict [])) [], mem_write path b fs)
      else (WriteResp 409 None (lit "sha mismatch"), fs)
  | Some _, None => (WriteResp 422 None (lit "sha missing"), fs)
  | None, _ => (WriteResp 201 (Some (PDict [])) [], mem_write path b fs)
  end.

Definition mem_delete (path message sha : pystr) (fs : memfs) : write_response * memfs :=
  match mem_lookup path fs with
  | Some (cur, _) =>
      if list_eq_dec Z.eq_dec cur sha then (WriteResp 200 (Some (PDict [])) [], mem_remove path fs)
      else (WriteResp 409 None (lit "sha mismatch"), fs)
  | None => (WriteResp 404 None (lit "Not Found"), fs)
  end.

Definition mem_github (cfg : config) : github memfs :=
  {| gh_get := mem_get cfg; gh_put := mem_put; gh_delete := mem_delete |}.

Definition mem_world (fs : memfs) : world memfs := {| store := fs; calls := [] |}.

(** Stand-ins for the parameters, in examples without floats or non-string
    values. *)
Definition fo0 : float_ops := {|
  float_truthy := fun _ => true;
  float_eq_float := fun x y => if list_eq_dec Z.eq_dec x y then true else false;
  float_eq_int := fun _ _ => false
|}.

Definition str0 (v : pyval) : pystr := [].

(** The display name [register] derives from a request body. *)
Definition register_display (fo : float_ops) (str_of : pyval -> pystr)
  (kv : list (pystr * pyval)) : pystr :=
  strip (py_str str_of (py_or fo (or_none (dict_get (lit "displayName") kv)) (PStr []))).


(** Registries and stores for the examples. *)
Definition alice_entry : user_entry :=
  {| ue_token := lit "0f3a"; ue_display := lit "Alice"; ue_createdAt := 1700000000000 |}.

Definition alice_registry : list (pystr * user_entry) := [(lit "alice", alice_entry)].

Definition payload_of (v : pyval) : bytes :=
  match registry_payload v with Some b => b | None => [] end.

Definition registry_store (b : bytes) : memfs := [(lit "users.json", (mem_sha b, b))].

Definition alice_store : memfs := registry_store (payload_of (registry_value alice_registry)).

(** A display name holding a surrogate pair as two code points, and the
    record with the pair joined. *)
Definition surrogate_registry : list (pystr * user_entry) :=
  [(lit "bob", {| ue_token := lit "t"; ue_display := [55296; 56320]; ue_createdAt := 0 |})].

Definition joined_registry : list (pystr * user_entry) :=
  [(lit "bob", {| ue_token := lit "t"; ue_display := [65536]; ue_createdAt := 0 |})].



Definition notes_file : upload_file :=
  {| filename := Some (lit "my notes.pdf"); file_bytes := [104; 105] |}.

Definition unnamed_file : upload_file := {| filename := Some []; file_bytes := [104; 105] |}.

Definition alice_users : list (pystr * pyval) :=
  map (fun p => (fst p, entry_value (snd p))) alice_registry.

Definition alice_loaded : option pystr * pyval :=
  (Some (mem_sha (payload_of (registry_value alice_registry))), registry_value alice_registry).

(** [alice_store] with one note of Alice's. *)
Definition listed_store : memfs :=
  alice_store ++ [(lit "notes/alice/1_a.txt", (mem_sha [104], [104]))].

(** ** Further notions and examples *)

(** The text of an exception, as [str(e)] gives it. *)
Definition exn_msg (e : exn) : pystr := let 'Exn d := e in d.

(** The [safe_name] of [upload] for the timestamp text [ts], and the
    [repo_path] it is stored under. *)
Definition upload_safe_name (is_alnum : Z -> bool) (ts : pystr) (f : upload_file) : pystr :=
  ts ++ [95] ++ safe_filename is_alnum (match filename f with
                                        | Some ((_ :: _) as n) => n
                                        | _ => lit "file"
                                        end).

Definition upload_path (cfg : config) (userId safe_name : pystr) : pystr :=
  NOTES_FOLDER cfg ++ [47] ++ userId ++ [47] ++ safe_name.

(** A repository the token may read but not write. *)
Definition readonly_github (cfg : config) : github memfs := {|
  gh_get := mem_get cfg;
  gh_put := fun _ _ _ _ fs => (WriteResp 403 None (lit "Resource not accessible"), fs);
  gh_delete := fun _ _ _ fs => (WriteResp 403 None (lit "Resource not accessible"), fs)
|}.


(** The default configuration with a one-byte upload limit. *)
Definition tiny_config : config := {|
  GITHUB_OWNER := GITHUB_OWNER default_config;
  GITHUB_REPO := GITHUB_REPO default_config;
  USERS_FILE_PATH := USERS_FILE_PATH default_config;
  NOTES_FOLDER := NOTES_FOLDER default_config;
  MAX_FILE_SIZE := 1
|}.

(** [alice_store] with a note of Alice's that is not UTF-8. *)
Definition binary_store : memfs :=
  alice_store ++ [(lit "notes/alice/2_b.bin", (mem_sha [255], [255]))].

(** A delete request of Alice's, with her token. *)
Definition alice_delete (path : pystr) : list (pystr * pyval) :=
  [(lit "filePath", PStr path); (lit "userId", PStr (lit "alice"));
   (lit "token", PStr (lit "0f3a"))].

(** Alice's record as the registry holds it. *)
Definition alice_record : list (pystr * pyval) :=
  [(lit "token", PStr (lit "0f3a")); (lit "display", PStr (lit "Alice"));
   (lit "createdAt", PInt 1700000000000)].

(** Users "a" and "a/b", and a note of "a/b". *)
Definition nested_registry : list (pystr * user_entry) :=
  [(lit "a", {| ue_token := lit "ta"; ue_display := []; ue_createdAt := 1 |});
   (lit "a/b", {| ue_token := lit "tb"; ue_display := []; ue_createdAt := 2 |})].

Definition nested_store : memfs :=
  registry_store (payload_of (registry_value nested_registry)) ++
  [(lit "notes/a/b/1_x.txt", (mem_sha [120], [120]))].

(** * Proofs *)

(** ** Arithmetic of the escapes *)

Lemma lor_disjoint (a b k : Z) :
  0 <= k -> 0 <= b < 2 ^ k -> Z.lor (a * 2 ^ k) b = a * 2 ^ k + b.
Proof.
  intros Hk Hb.
  assert (Hl : Z.land (a * 2 ^ k) b = 0).
  { apply Z.bits_inj'; intros i Hi. rewrite Z.land_spec, Z.bits_0.
    destruct (Z.lt_ge_cases i k) as [Hlt|Hge].
    - rewrite Z.mul_pow2_bits_low by lia. reflexivity.
    - destruct (Z.eq_dec b 0) as [->|Hb0].
      + rewrite Z.bits_0. apply andb_false_r.
      + assert (Z.log2 b < k) by (apply (proj1 (Z.log2_lt_pow2 b k ltac:(lia))); lia).
        rewrite (Z.bits_above_log2 b i) by lia. apply andb_false_r. }
  rewrite <- (Z.lxor_lor _ _ Hl), <- (Z.add_nocarry_lxor _ _ Hl). reflexivity.
Qed.

Lemma shiftr_land15 (n k : Z) : 0 <= k -> Z.land (Z.shiftr n k) 15 = (n / 2 ^ k) mod 16.
Proof.
  intros Hk. rewrite Z.shiftr_div_pow2 by lia.
  change 15 with (Z.ones 4). rewrite Z.land_ones by lia. reflexivity.
Qed.

Lemma hex_val_digit (d : Z) : 0 <= d < 16 -> hex_val (hex_digit d) = Some d.
Proof.
  intros Hd.
  assert (d = 0 \/ d = 1 \/ d = 2 \/ d = 3 \/ d = 4 \/ d = 5 \/ d = 6 \/ d = 7 \/
          d = 8 \/ d = 9 \/ d = 10 \/ d = 11 \/ d = 12 \/ d = 13 \/ d = 14 \/ d = 15)
    as H by lia.
  repeat destruct H as [->|H]; try reflexivity; subst; reflexivity.
Qed.

Lemma hex4_u_escape (n : Z) :
  0 <= n < 65536 ->
  exists a b c d, u_escape n = [92; 117; a; b; c; d] /\ hex4 a b c d = Some n.
Proof.
  intros Hn. unfold u_escape. do 4 eexists. split; [reflexivity|].
  unfold hex4.
  rewrite (shiftr_land15 n 8), (shiftr_land15 n 4) by lia.
  rewrite Z.shiftr_div_pow2 by lia. change (Z.land n 15) with (Z.land n (Z.ones 4)).
  rewrite Z.land_ones by lia.
  change (2 ^ 12) with 4096. change (2 ^ 8) with 256. change (2 ^ 4) with 16.
  rewrite !hex_val_digit; try (split; [apply Z.mod_pos_bound; lia|]); 
    try (apply Z.mod_pos_bound; lia);
    try (split; [apply Z.div_pos; lia | apply Z.div_lt_upper_bound; lia]);
    try (apply Z.mod_pos_bound; lia).
  f_equal.
  pose proof (Z.div_mod n 16 ltac:(lia)).
  pose proof (Z.div_mod (n / 16) 16 ltac:(lia)).
  pose proof (Z.div_mod (n / 256) 16 ltac:(lia)).
  rewrite Z.div_div in H0 by lia. rewrite Z.div_div in H1 by lia.
  change (16 * 16) with 256 in H0. change (256 * 16) with 4096 in H1.
  lia.
Qed.

Lemma land_1023 (x : Z) : Z.land x 1023 = x mod 1024.
Proof. change 1023 with (Z.ones 10). rewrite Z.land_ones by lia. reflexivity. Qed.

(** The two halves [encode_char] writes for a supplementary character, and
    [join_surrogates] putting them back together. *)
Lemma surrogate_split (c : Z) :
  65536 <= c <= 1114111 ->
  let n := c - 65536 in
  let hi := Z.lor 55296 (Z.land (Z.shiftr n 10) 1023) in
  let lo := Z.lor 56320 (Z.land n 1023) in
  hi = 55296 + n / 1024 /\ lo = 56320 + n mod 1024 /\
  is_high_surrogate hi = true /\ is_low_surrogate lo = true /\
  join_surrogates hi lo = c.
Proof.
  intros Hc n hi lo.
  assert (Hq : 0 <= n / 1024 < 1024)
    by (split; [apply Z.div_pos|apply Z.div_lt_upper_bound]; lia).
  assert (Hr : 0 <= n mod 1024 < 1024) by (apply Z.mod_pos_bound; lia).
  assert (Hhi : hi = 55296 + n / 1024).
  { unfold hi. rewrite land_1023, Z.shiftr_div_pow2 by lia.
    change (2 ^ 10) with 1024. rewrite (Z.mod_small (n / 1024)) by lia.
    change 55296 with (54 * 2 ^ 10). rewrite lor_disjoint by (cbn; lia). reflexivity. }
  assert (Hlo : lo = 56320 + n mod 1024).
  { unfold lo. rewrite land_1023.
    change 56320 with (55 * 2 ^ 10). rewrite lor_disjoint by (cbn; lia). reflexivity. }
  split; [exact Hhi|]. split; [exact Hlo|].
  rewrite Hhi, Hlo. unfold is_high_surrogate, is_low_surrogate, in_range.
  split; [apply andb_true_intro; split; apply Z.leb_le; lia|].
  split; [apply andb_true_intro; split; apply Z.leb_le; lia|].
  unfold join_surrogates. rewrite !land_1023.
  replace (55296 + n / 1024) with (n / 1024 + 54 * 1024) by lia.
  replace (56320 + n mod 1024) with (n mod 1024 + 55 * 1024) by lia.
  rewrite !Z.mod_add by lia.
  rewrite (Z.mod_small (n / 1024)) by lia. rewrite Z.mod_mod by lia.
  rewrite Z.shiftl_mul_pow2 by lia. rewrite lor_disjoint by (cbn; lia).
  pose proof (Z.div_mod n 1024 ltac:(lia)). cbn. lia.
Qed.

(** ** Strings: [scanstring] reads back what [encode_basestring_ascii]
    wrote *)

Ltac zbool :=
  repeat match goal with
  | H : (_ =? _) = true |- _ => apply Z.eqb_eq in H
  | H : (_ =? _) = false |- _ => apply Z.eqb_neq in H
  | H : (_ <=? _) = true |- _ => apply Z.leb_le in H
  | H : (_ <=? _) = false |- _ => apply Z.leb_gt in H
  | H : (_ <? _) = true |- _ => apply Z.ltb_lt in H
  | H : (_ <? _) = false |- _ => apply Z.ltb_ge in H
  | H : (_ && _) = true |- _ => apply andb_true_iff in H; destruct H
  | H : (_ || _) = false |- _ => apply orb_false_iff in H; destruct H
  end.

Lemma next_escape_some (t : pystr) (x : option Z) :
  next_escape t = Some x ->
  exists g1 g2 g3 g4 t3, t = 92 :: 117 :: g1 :: g2 :: g3 :: g4 :: t3 /\ x = hex4 g1 g2 g3 g4.
Proof.
  unfold next_escape.
  destruct t as [|x1 [|x2 [|g1 [|g2 [|g3 [|g4 t3]]]]]]; try discriminate.
  destruct ((x1 =? 92) && (x2 =? 117)) eqn:E; [|discriminate].
  intros H. injection H as <-. zbool. subst. do 5 eexists. split; reflexivity.
Qed.

Lemma range_bool (lo hi c : Z) : in_range lo hi c = true <-> lo <= c <= hi.
Proof.
  unfold in_range. rewrite andb_true_iff, !Z.leb_le. tauto.
Qed.

Lemma encode_char_cases (c : Z) :
  code_point c = true ->
  (exists e, encode_char c = [92; e] /\ e <> 117 /\ unescape e = Some c /\ 0 <= c < 128)
  \/ (encode_char c = [c] /\ 32 <= c <= 126 /\ c <> 92 /\ c <> 34)
  \/ (encode_char c = u_escape c /\ 0 <= c < 65536)
  \/ (encode_char c =
        u_escape (Z.lor 55296 (Z.land (Z.shiftr (c - 65536) 10) 1023)) ++
        u_escape (Z.lor 56320 (Z.land (c - 65536) 1023))
      /\ 65536 <= c <= 1114111).
Proof.
  intros Hc. unfold code_point in Hc. apply range_bool in Hc.
  unfold encode_char.
  destruct (c =? 92) eqn:E1; [zbool; subst; left; eexists; repeat split; try discriminate; lia|].
  destruct (c =? 34) eqn:E2; [zbool; subst; left; eexists; repeat split; try discriminate; lia|].
  destruct (c =? 8) eqn:E3; [zbool; subst; left; eexists; repeat split; try discriminate; lia|].
  destruct (c =? 12) eqn:E4; [zbool; subst; left; eexists; repeat split; try discriminate; lia|].
  destruct (c =? 10) eqn:E5; [zbool; subst; left; eexists; repeat split; try discriminate; lia|].
  destruct (c =? 13) eqn:E6; [zbool; subst; left; eexists; repeat split; try discriminate; lia|].
  destruct (c =? 9) eqn:E7; [zbool; subst; left; eexists; repeat split; try discriminate; lia|].
  zbool.
  destruct (in_range 32 126 c) eqn:E8.
  { apply range_bool in E8. right; left. repeat split; auto; lia. }
  destruct (c <? 65536) eqn:E9; zbool.
  - right; right; left. split; [reflexivity|lia].
  - right; right; right. split; [reflexivity|lia].
Qed.

Lemma scan_u_escape_plain (u : Z) (t2 : pystr) :
  0 <= u < 65536 ->
  (is_high_surrogate u = false \/
   forall x, next_escape t2 = Some x -> exists u2, x = Some u2 /\ is_low_surrogate u2 = false) ->
  scanstring (u_escape u ++ t2) = scons u (scanstring t2).
Proof.
  intros Hu Hc. destruct (hex4_u_escape u Hu) as (a & b & c & d & He & Hh).
  rewrite He. cbn -[hex4 is_high_surrogate is_low_surrogate join_surrogates].
  rewrite Hh.
  destruct (is_high_surrogate u) eqn:Hhigh; [|reflexivity].
  destruct Hc as [Hc|Hc]; [discriminate|].
  destruct t2 as [|x1 [|x2 [|g1 [|g2 [|g3 [|g4 t3]]]]]]; try reflexivity.
  destruct ((x1 =? 92) && (x2 =? 117)) eqn:E; [|reflexivity].
  destruct (Hc (hex4 g1 g2 g3 g4)) as (u2 & Hg & Hl).
  { unfold next_escape. rewrite E. reflexivity. }
  rewrite Hg, Hl. reflexivity.
Qed.

Lemma scan_u_escape_pair (hi lo : Z) (t3 : pystr) :
  0 <= hi < 65536 -> 0 <= lo < 65536 ->
  is_high_surrogate hi = true -> is_low_surrogate lo = true ->
  scanstring (u_escape hi ++ u_escape lo ++ t3) = scons (join_surrogates hi lo) (scanstring t3).
Proof.
  intros Hh Hl Hhi Hlo.
  destruct (hex4_u_escape hi Hh) as (a & b & c & d & He & Hx).
  destruct (hex4_u_escape lo Hl) as (a' & b' & c' & d' & He' & Hx').
  rewrite He, He'. cbn -[hex4 is_high_surrogate is_low_surrogate join_surrogates].
  rewrite Hx, Hhi, Hx', Hlo. reflexivity.
Qed.

Lemma high_not_low (u : Z) : is_high_surrogate u = true -> is_low_surrogate u = false.
Proof.
  unfold is_high_surrogate, is_low_surrogate. intros H. apply range_bool in H.
  destruct (in_range 56320 57343 u) eqn:E; [apply range_bool in E; lia|reflexivity].
Qed.

(** The escape an encoded character starts with decodes to a low surrogate
    only when the character is one. *)
Lemma next_escape_encode (c : Z) (t : pystr) :
  code_point c = true ->
  forall x, next_escape (encode_char c ++ t) = Some x ->
  exists u2, x = Some u2 /\ (is_low_surrogate u2 = true -> is_low_surrogate c = true).
Proof.
  intros Hc x Hx. apply next_escape_some in Hx.
  destruct Hx as (g1 & g2 & g3 & g4 & t3 & Ht & ->).
  destruct (encode_char_cases c Hc) as [(e & He & Hne & _)|[(He & _ & Hn & _)|[(He & Hr)|(He & Hr)]]];
    rewrite He in Ht.
  - cbn [app] in Ht. inversion Ht; congruence.
  - cbn [app] in Ht. injection Ht as H1. congruence.
  - destruct (hex4_u_escape c Hr) as (a & b & cc & d & He2 & Hx).
    rewrite He2 in Ht. cbn [app] in Ht. injection Ht as -> -> -> -> _.
    exists c. split; [exact Hx|auto].
  - destruct (surrogate_split c Hr) as (Hhi & _ & Hh & _ & _).
    set (hi := Z.lor 55296 (Z.land (Z.shiftr (c - 65536) 10) 1023)) in *.
    assert (Hb : 0 <= hi < 65536)
      by (pose proof (proj1 (range_bool _ _ _) Hh); lia).
    destruct (hex4_u_escape hi Hb) as (a & b & cc & d & He2 & Hx).
    rewrite <- app_assoc, He2 in Ht. cbn [app] in Ht. injection Ht as -> -> -> -> _.
    exists hi. split; [exact Hx|]. rewrite (high_not_low hi Hh). discriminate.
Qed.

Lemma not_high (c : Z) : c < 55296 \/ 56319 < c -> is_high_surrogate c = false.
Proof.
  intros H. unfold is_high_surrogate.
  destruct (in_range 55296 56319 c) eqn:E; [apply range_bool in E; lia|reflexivity].
Qed.

Lemma join_pairs_nohigh (a : Z) (t : pystr) :
  is_high_surrogate a = false -> join_pairs (a :: t) = a :: join_pairs t.
Proof.
  intros H. destruct t as [|b r]; [reflexivity|].
  change (join_pairs (a :: b :: r)) with
    (if is_high_surrogate a && is_low_surrogate b
     then join_surrogates a b :: join_pairs r else a :: join_pairs (b :: r)).
  rewrite H. reflexivity.
Qed.

Lemma low_encode (c : Z) :
  code_point c = true -> is_low_surrogate c = true ->
  encode_char c = u_escape c /\ 0 <= c < 65536.
Proof.
  intros Hc Hl. apply range_bool in Hl.
  destruct (encode_char_cases c Hc) as [(e & _ & _ & _ & Hr)|[(_ & Hr & _)|[H|(_ & Hr)]]];
    auto; lia.
Qed.

Lemma next_escape_quote (rest : pystr) : forall x, next_escape (34 :: rest) = Some x -> False.
Proof.
  intros x Hx. apply next_escape_some in Hx.
  destruct Hx as (g1 & g2 & g3 & g4 & t3 & Heq & _). discriminate.
Qed.

Lemma scan_encoded (n : nat) (s rest : pystr) :
  (List.length s <= n)%nat -> forallb code_point s = true ->
  scanstring (flat_map encode_char s ++ 34 :: rest) = Some (join_pairs s, rest).
Proof.
  revert s. induction n as [|n IH]; intros s Hlen Hs.
  - destruct s; [reflexivity|cbn in Hlen; lia].
  - destruct s as [|c t]; [reflexivity|].
    cbn [forallb] in Hs. apply andb_true_iff in Hs as [Hc Ht].
    assert (IHt : scanstring (flat_map encode_char t ++ 34 :: rest) = Some (join_pairs t, rest))
      by (apply IH; [cbn in Hlen; lia|exact Ht]).
    cbn [flat_map]. rewrite <- app_assoc.
    destruct (encode_char_cases c Hc)
      as [(e & He & Hne & Hu & Hr)|[(He & Hr & H92 & H34)|[(He & Hr)|(He & Hr)]]];
      rewrite He.
    + cbn -[unescape hex4 is_high_surrogate is_low_surrogate join_surrogates join_pairs].
      rewrite (proj2 (Z.eqb_neq e 117) Hne), Hu, IHt. cbn [scons].
      rewrite join_pairs_nohigh by (apply not_high; lia). reflexivity.
    + cbn -[unescape hex4 is_high_surrogate is_low_surrogate join_surrogates join_pairs].
      rewrite (proj2 (Z.eqb_neq c 34) H34), (proj2 (Z.eqb_neq c 92) H92).
      replace (c <=? 31) with false by (symmetry; apply Z.leb_gt; lia).
      rewrite IHt. cbn [scons].
      rewrite join_pairs_nohigh by (apply not_high; lia). reflexivity.
    + destruct (is_high_surrogate c) eqn:Hh.
      * destruct t as [|c' t'].
        -- rewrite scan_u_escape_plain, IHt; [reflexivity|lia|].
           right. intros x Hx. exfalso. exact (next_escape_quote rest x Hx).
        -- cbn [forallb] in Ht. apply andb_true_iff in Ht as [Hc' Ht'].
           destruct (is_low_surrogate c') eqn:Hl.
           ++ destruct (low_encode c' Hc' Hl) as [He' Hr'].
              cbn [flat_map]. rewrite <- app_assoc, He'.
              rewrite scan_u_escape_pair, (IH t'); auto; [|cbn in Hlen; lia].
              change (join_pairs (c :: c' :: t')) with
                (if is_high_surrogate c && is_low_surrogate c'
                 then join_surrogates c c' :: join_pairs t' else c :: join_pairs (c' :: t')).
              rewrite Hh, Hl. reflexivity.
           ++ rewrite scan_u_escape_plain, IHt; [|lia|].
              ** change (join_pairs (c :: c' :: t')) with
                   (if is_high_surrogate c && is_low_surrogate c'
                    then join_surrogates c c' :: join_pairs t' else c :: join_pairs (c' :: t')).
                 rewrite Hh, Hl. reflexivity.
              ** right. intros x Hx. cbn [flat_map] in Hx. rewrite <- app_assoc in Hx.
                 destruct (next_escape_encode c' _ Hc' x Hx) as (u2 & -> & Himp).
                 exists u2. split; [reflexivity|].
                 destruct (is_low_surrogate u2); [rewrite Himp in Hl by reflexivity|]; auto.
      * rewrite scan_u_escape_plain, IHt by (auto || lia).
        rewrite join_pairs_nohigh by exact Hh. reflexivity.
    + destruct (surrogate_split c Hr) as (Hhi & Hlo & Hh & Hl & Hj).
      rewrite <- app_assoc, scan_u_escape_pair, IHt; [|pose proof (proj1 (range_bool _ _ _) Hh)
        | pose proof (proj1 (range_bool _ _ _) Hl) | exact Hh | exact Hl]; try lia.
      rewrite Hj, join_pairs_nohigh by (apply not_high; lia). reflexivity.
Qed.

(** ** Integers: [match_number] reads back what [int_repr] wrote *)

Lemma digits_value_snoc (l : pystr) (x : Z) :
  digits_value (l ++ [x]) = digits_value l * 10 + (x - 48).
Proof. unfold digits_value. rewrite fold_left_app. reflexivity. Qed.

Lemma digit_ok (k : Z) : 0 <= k < 10 -> is_digit (48 + k) = true.
Proof. intros H. apply range_bool. lia. Qed.

Lemma digits_rev_S (f : nat) (n : Z) :
  digits_rev (S f) n = if n <? 10 then [48 + n] else (48 + n mod 10) :: digits_rev f (n / 10).
Proof. reflexivity. Qed.

Lemma digits_rev_spec (f : nat) (n : Z) :
  0 <= n < 10 ^ Z.of_nat (S f) ->
  exists d ds, rev (digits_rev (S f) n) = d :: ds /\ forallb is_digit (d :: ds) = true /\
    digits_value (d :: ds) = n /\ (d = 48 -> ds = [] /\ n = 0).
Proof.
  revert n. induction f as [|f IH]; intros n Hn.
  - cbn in Hn. cbn [digits_rev]. replace (n <? 10) with true by (symmetry; apply Z.ltb_lt; lia).
    exists (48 + n), []. split; [reflexivity|]. split.
    + cbn [forallb]. rewrite digit_ok by lia. reflexivity.
    + split; [unfold digits_value; cbn [fold_left]; lia|]. intros H. split; [reflexivity|lia].
  - rewrite digits_rev_S. destruct (n <? 10) eqn:E; zbool.
    + exists (48 + n), []. split; [reflexivity|]. split.
      * cbn [forallb]. rewrite digit_ok by lia. reflexivity.
      * split; [unfold digits_value; cbn [fold_left]; lia|]. intros H. split; [reflexivity|lia].
    + assert (Hq : 0 <= n / 10 < 10 ^ Z.of_nat (S f)).
      { split; [apply Z.div_pos; lia|]. apply Z.div_lt_upper_bound; [lia|].
        replace (Z.of_nat (S (S f))) with (Z.of_nat (S f) + 1) in Hn by lia.
        rewrite Z.pow_add_r in Hn by lia. lia. }
      destruct (IH (n / 10) Hq) as (d & ds & Hr & Hdg & Hv & H48).
      exists d, (ds ++ [48 + n mod 10]). cbn [rev]. rewrite Hr.
      split; [reflexivity|].
      pose proof (Z.mod_pos_bound n 10 ltac:(lia)).
      split.
      * change (d :: ds ++ [48 + n mod 10]) with ((d :: ds) ++ [48 + n mod 10]).
        rewrite forallb_app, Hdg. cbn [forallb]. rewrite digit_ok by lia. reflexivity.
      * split.
        -- change (d :: ds ++ [48 + n mod 10]) with ((d :: ds) ++ [48 + n mod 10]).
           rewrite digits_value_snoc, Hv. pose proof (Z.div_mod n 10 ltac:(lia)). lia.
        -- intros Hd. destruct (H48 Hd) as [_ H0].
           pose proof (Z.div_mod n 10 ltac:(lia)). lia.
Qed.

Lemma decimal_digits_spec (n : Z) :
  0 <= n ->
  exists d ds, decimal_digits n = d :: ds /\ forallb is_digit (d :: ds) = true /\
    digits_value (d :: ds) = n /\ (d = 48 -> ds = [] /\ n = 0).
Proof.
  intros Hn. unfold decimal_digits. apply digits_rev_spec. split; [exact Hn|].
  rewrite Nat2Z.inj_succ, Z2Nat.id by (apply Z.log2_nonneg).
  destruct (Z.eq_dec n 0) as [->|Hn0]; [cbn; lia|].
  apply Z.lt_le_trans with (2 ^ Z.succ (Z.log2 n)).
  - apply Z.log2_spec; lia.
  - apply Z.pow_le_mono_l. lia.
Qed.

Lemma delim_frac_exp (rest : pystr) :
  delim rest = true -> match_frac rest = None /\ match_exp rest = None.
Proof.
  destruct rest as [|c r]; [discriminate|]. cbn [delim]. intros H.
  apply orb_true_iff in H as [H|H]; zbool; subst; (split; [destruct r; reflexivity|reflexivity]).
Qed.

Lemma span_digits_app (ds rest : pystr) :
  forallb is_digit ds = true -> delim rest = true -> span_digits (ds ++ rest) = (ds, rest).
Proof.
  intros Hd Hr. induction ds as [|c ds IH].
  - destruct rest as [|c r]; [discriminate|]. cbn [delim] in Hr.
    apply orb_true_iff in Hr as [H|H]; zbool; subst; reflexivity.
  - cbn [forallb] in Hd. apply andb_true_iff in Hd as [Hc Hd].
    cbn [app span_digits]. rewrite Hc, IH by exact Hd. reflexivity.
Qed.

Lemma digit_bounds (d : Z) : is_digit d = true -> 48 <= d <= 57.
Proof. intros H. apply range_bool in H. exact H. Qed.

Lemma match_number_int (z : Z) (ds rest : pystr) :
  int_repr z = Some ds -> delim rest = true ->
  match_number (ds ++ rest) = Some (PInt z, rest).
Proof.
  intros Hz Hr. unfold int_repr in Hz.
  destruct (decimal_digits_spec (Z.abs z) (Z.abs_nonneg z)) as (d & ds0 & Hdd & Hdg & Hv & H48).
  rewrite Hdd in Hz.
  destruct (Nat.ltb max_str_digits (List.length (d :: ds0))) eqn:Hlen; [discriminate|].
  injection Hz as <-.
  cbn [forallb] in Hdg. apply andb_true_iff in Hdg as [Hd Hds].
  pose proof (digit_bounds d Hd) as Hdb.
  destruct (delim_frac_exp rest Hr) as [Hf He].
  assert (Hip :
    (match d :: ds0 ++ rest with
     | c :: r => if in_range 49 57 c then let (ds, r') := span_digits r in Some (c :: ds, r')
                 else if c =? 48 then Some ([c], r) else None
     | [] => None
     end) = Some (d :: ds0, rest)).
  { destruct (in_range 49 57 d) eqn:E.
    - rewrite span_digits_app by assumption. reflexivity.
    - apply Bool.not_true_iff_false in E. rewrite range_bool in E.
      assert (d = 48) as -> by lia. destruct (H48 eq_refl) as [-> _]. reflexivity. }
  destruct (z <? 0) eqn:Hneg; zbool; unfold match_number.
  - cbn [app]. cbn beta iota zeta. rewrite (Z.eqb_refl 45).
    cbn beta iota zeta. rewrite Hip. cbn beta iota zeta. rewrite Hf, He.
    cbn beta iota zeta. rewrite Hlen. cbn [List.length Nat.eqb]. rewrite Hv. repeat f_equal. lia.
  - cbn [app]. cbn beta iota zeta.
    replace (d =? 45) with false by (symmetry; apply Z.eqb_neq; lia).
    cbn beta iota zeta. rewrite Hip. cbn beta iota zeta. rewrite Hf, He.
    cbn beta iota zeta. rewrite Hlen. cbn [List.length Nat.eqb]. rewrite Hv. repeat f_equal. lia.
Qed.

Lemma scan_once_other (f : nat) (c : Z) (t : pystr) :
  c <> 34 -> c <> 123 -> c <> 91 ->
  scan_once (S f) (c :: t) =
  match match_constant (c :: t) with Some p => Some p | None => match_number (c :: t) end.
Proof.
  intros H1 H2 H3. cbn [scan_once].
  rewrite (proj2 (Z.eqb_neq c 34) H1), (proj2 (Z.eqb_neq c 123) H2), (proj2 (Z.eqb_neq c 91) H3).
  reflexivity.
Qed.

Ltac neq_rewrite :=
  repeat match goal with
  | |- context [?d =? ?k] => replace (d =? k) with false by (symmetry; apply Z.eqb_neq; lia)
  end.

Lemma match_constant_digit (d : Z) (t : pystr) : 48 <= d <= 57 -> match_constant (d :: t) = None.
Proof. intros H. unfold match_constant. neq_rewrite. reflexivity. Qed.

Lemma match_constant_minus (d : Z) (t : pystr) :
  48 <= d <= 57 -> match_constant (45 :: d :: t) = None.
Proof.
  intros H. unfold match_constant. cbn -[Z.eqb]. neq_rewrite. reflexivity.
Qed.

Lemma scan_int (f : nat) (z : Z) (ds rest : pystr) :
  int_repr z = Some ds -> delim rest = true ->
  scan_once (S f) (ds ++ rest) = Some (PInt z, rest).
Proof.
  intros Hz Hr. pose proof (match_number_int z ds rest Hz Hr) as Hm.
  unfold int_repr in Hz.
  destruct (decimal_digits_spec (Z.abs z) (Z.abs_nonneg z)) as (d & ds0 & Hdd & Hdg & _).
  rewrite Hdd in Hz. destruct (Nat.ltb max_str_digits _); [discriminate|].
  injection Hz as <-. cbn [forallb] in Hdg. apply andb_true_iff in Hdg as [Hd _].
  apply digit_bounds in Hd.
  destruct (z <? 0).
  - cbn [app] in Hm |- *. rewrite scan_once_other by lia.
    rewrite match_constant_minus by lia. exact Hm.
  - cbn [app] in Hm |- *. rewrite scan_once_other by lia.
    rewrite match_constant_digit by lia. exact Hm.
Qed.

Lemma no_split_join (s : pystr) : no_split_pair s = true -> join_pairs s = s.
Proof.
  induction s as [|a t IH]; [reflexivity|]. intros H.
  destruct t as [|b r]; [reflexivity|].
  cbn [no_split_pair] in H. apply andb_true_iff in H as [H1 H2].
  change (join_pairs (a :: b :: r)) with
    (if is_high_surrogate a && is_low_surrogate b
     then join_surrogates a b :: join_pairs r else a :: join_pairs (b :: r)).
  apply negb_true_iff in H1. rewrite H1, IH by exact H2. reflexivity.
Qed.

Lemma scan_str (f : nat) (s rest : pystr) :
  good_str s = true ->
  scan_once (S f) (encode_basestring_ascii s ++ rest) = Some (PStr s, rest).
Proof.
  intros Hg. unfold good_str in Hg. apply andb_true_iff in Hg as [Hc Hn].
  unfold encode_basestring_ascii. cbn [app scan_once]. rewrite Z.eqb_refl.
  rewrite <- app_assoc. cbn [app].
  rewrite (scan_encoded (List.length s) s rest (le_n _) Hc), no_split_join by exact Hn.
  reflexivity.
Qed.

(** ** Objects: [parse_object] reads back the members [dumps_at] wrote *)

Lemma skip_ws_nonws (c : Z) (x : pystr) : is_ws c = false -> skip_ws (c :: x) = c :: x.
Proof. intros H. cbn [skip_ws]. rewrite H. reflexivity. Qed.

Lemma skip_ws_indent (l : nat) (x : pystr) : skip_ws (newline_indent l ++ x) = skip_ws x.
Proof.
  unfold newline_indent. cbn [app skip_ws is_ws Z.eqb orb].
  induction (2 * l)%nat as [|n IH]; [reflexivity|]. exact IH.
Qed.

Lemma dict_set_fresh (k : pystr) (v : pyval) (acc : list (pystr * pyval)) :
  ~ In k (map fst acc) -> dict_set k v acc = acc ++ [(k, v)].
Proof.
  induction acc as [|[k' v'] acc IH]; intros Hn; [reflexivity|].
  cbn [map fst In] in Hn. cbn [dict_set].
  destruct (list_eq_dec Z.eq_dec k k') as [->|Hne]; [tauto|].
  rewrite IH by tauto. reflexivity.
Qed.

Lemma parse_member_step (f : nat) (acc : list (pystr * pyval)) (k a : pystr) (v : pyval)
  (rest : pystr) :
  good_str k = true -> (exists c a', a = c :: a' /\ is_ws c = false) ->
  scan_once f (a ++ rest) = Some (v, rest) ->
  parse_object (S f) acc (encode_basestring_ascii k ++ [58; 32] ++ a ++ rest) =
  match skip_ws rest with
  | c3 :: r4 =>
      if c3 =? 125 then Some (PDict (dict_set k v acc), r4)
      else if c3 =? 44 then parse_object f (dict_set k v acc) (skip_ws r4) else None
  | [] => None
  end.
Proof.
  intros Hk (c & a' & -> & Hc) Hv.
  unfold good_str in Hk. apply andb_true_iff in Hk as [Hk1 Hk2].
  unfold encode_basestring_ascii. cbn [app]. rewrite <- !app_assoc. cbn [app].
  cbn [parse_object]. rewrite Z.eqb_refl.
  rewrite (scan_encoded (List.length k) k _ (le_n _) Hk1), no_split_join by exact Hk2.
  cbn [skip_ws is_ws Z.eqb orb Pos.eqb]. rewrite Hc.
  cbn [app] in Hv. rewrite Hv. reflexivity.
Qed.

Lemma join_cons2 (sep x y : pystr) (r : list pystr) :
  join sep (x :: y :: r) = x ++ sep ++ join sep (y :: r).
Proof. reflexivity. Qed.

Lemma join_first (sep : pystr) (c : Z) (t : pystr) (r : list pystr) :
  exists u, join sep ((c :: t) :: r) = c :: u.
Proof.
  destruct r as [|y r]; [exists t; reflexivity|].
  rewrite join_cons2. eexists. reflexivity.
Qed.

Lemma skip_ws_join (sep y : pystr) (r : list pystr) (x : pystr) :
  (exists c y', y = c :: y' /\ is_ws c = false) ->
  skip_ws (join sep (y :: r) ++ x) = join sep (y :: r) ++ x.
Proof.
  intros (c & y' & -> & Hc). destruct r as [|z r].
  - cbn [join app]. apply skip_ws_nonws, Hc.
  - rewrite join_cons2. cbn [app]. apply skip_ws_nonws, Hc.
Qed.

Lemma nodup_fresh (acc kv : list (pystr * pyval)) (p : pystr * pyval) :
  NoDup (map fst (acc ++ p :: kv)) -> ~ In (fst p) (map fst acc).
Proof.
  rewrite map_app. cbn [map]. intros H Hin. apply NoDup_remove_2 in H.
  apply H, in_or_app. left. exact Hin.
Qed.

Lemma parse_members (l V : nat) (r : pystr) :
  forall kv chunks acc fuel,
  kv <> [] ->
  Forall2 (fun p ch => exists a, ch = encode_basestring_ascii (fst p) ++ [58; 32] ++ a /\
             good_str (fst p) = true /\ (exists c a', a = c :: a' /\ is_ws c = false) /\
             forall f rest', (V <= f)%nat -> delim rest' = true ->
               scan_once f (a ++ rest') = Some (snd p, rest'))
          kv chunks ->
  NoDup (map fst (acc ++ kv)) ->
  (List.length kv + V <= fuel)%nat ->
  parse_object fuel acc (join (44 :: newline_indent (S l)) chunks ++ newline_indent l ++ 125 :: r)
  = Some (PDict (acc ++ kv), r).
Proof.
  induction kv as [|p kv IH]; intros chunks acc fuel Hne Hf Hnd Hfuel; [congruence|].
  inversion Hf as [|? ch ? chs Hch Hrest]; subst.
  destruct Hch as (a & -> & Hk & Ha & Hv).
  destruct fuel as [|f]; [cbn in Hfuel; lia|].
  pose proof (nodup_fresh acc kv p Hnd) as Hfresh.
  destruct p as [k v]. cbn [fst snd] in *.
  destruct kv as [|p' kv'].
  - inversion Hrest; subst. cbn [join]. rewrite <- !app_assoc.
    rewrite (parse_member_step f acc k a v); auto.
    + rewrite skip_ws_indent. cbn [skip_ws is_ws Z.eqb orb Pos.eqb].
      rewrite dict_set_fresh by exact Hfresh. reflexivity.
    + apply Hv; [cbn in Hfuel; lia|reflexivity].
  - inversion Hrest as [|? ch' ? chs' Hch' Hrest']; subst.
    rewrite join_cons2, <- !app_assoc.
    rewrite (parse_member_step f acc k a v); auto.
    + cbn [app skip_ws is_ws Z.eqb orb Pos.eqb]. rewrite skip_ws_indent.
      destruct Hch' as (a2 & Hch2 & _).
      rewrite skip_ws_join.
      * rewrite dict_set_fresh by exact Hfresh.
        replace (acc ++ (k, v) :: p' :: kv') with ((acc ++ [(k, v)]) ++ p' :: kv')
          by (rewrite <- app_assoc; reflexivity).
        apply IH; auto; [congruence| |cbn in Hfuel |- *; lia].
        rewrite <- app_assoc. exact Hnd.
      * rewrite Hch2. unfold encode_basestring_ascii. exists 34. eexists. split; [reflexivity|reflexivity].
    + apply Hv; [cbn in Hfuel; lia|reflexivity].
Qed.

(** ** The dump is ASCII, so its UTF-8 encoding is itself *)

Lemma utf8_ascii (s : pystr) :
  forallb is_ascii s = true -> utf8_encode s = Some s /\ utf8_decode s = Some s.
Proof.
  induction s as [|c s IH]; [split; reflexivity|].
  cbn [forallb]. intros H. apply andb_true_iff in H as [Hc Hs].
  apply range_bool in Hc. destruct (IH Hs) as [He Hd].
  cbn [utf8_encode utf8_decode]. unfold utf8_encode_char.
  replace (c <? 128) with true by (symmetry; apply Z.ltb_lt; lia).
  rewrite He, Hd. split; reflexivity.
Qed.

Lemma hex_digit_ascii (n : Z) : 0 <= n < 16 -> is_ascii (hex_digit n) = true.
Proof.
  intros H. unfold hex_digit, is_ascii. apply range_bool.
  destruct (n <? 10) eqn:E; zbool; lia.
Qed.

Lemma u_escape_ascii (n : Z) : 0 <= n < 65536 -> forallb is_ascii (u_escape n) = true.
Proof.
  intros Hn. unfold u_escape. cbn [forallb].
  rewrite (shiftr_land15 n 8), (shiftr_land15 n 4) by lia.
  rewrite Z.shiftr_div_pow2 by lia. change (Z.land n 15) with (Z.land n (Z.ones 4)).
  rewrite Z.land_ones by lia.
  change (2 ^ 12) with 4096. change (2 ^ 8) with 256. change (2 ^ 4) with 16.
  rewrite !hex_digit_ascii; try reflexivity; try (apply Z.mod_pos_bound; lia).
  split; [apply Z.div_pos; lia|apply Z.div_lt_upper_bound; lia].
Qed.

Lemma encode_char_ascii (c : Z) :
  code_point c = true -> forallb is_ascii (encode_char c) = true.
Proof.
  intros Hc. destruct (encode_char_cases c Hc)
    as [(e & He & _ & Hu & _)|[(He & Hr & _)|[(He & Hr)|(He & Hr)]]]; rewrite He.
  - unfold unescape in Hu.
    repeat match type of Hu with
    | context [if ?b then _ else _] => destruct b eqn:?
    end; try discriminate; zbool; subst; reflexivity.
  - cbn [forallb]. unfold is_ascii. rewrite (proj2 (range_bool _ _ _)) by lia. reflexivity.
  - apply u_escape_ascii. exact Hr.
  - destruct (surrogate_split c Hr) as (_ & _ & Hh & Hl & _).
    apply range_bool in Hh. apply range_bool in Hl.
    rewrite forallb_app, !u_escape_ascii by lia. reflexivity.
Qed.

Lemma encode_ascii (s : pystr) :
  forallb code_point s = true -> forallb is_ascii (encode_basestring_ascii s) = true.
Proof.
  intros Hs. unfold encode_basestring_ascii. cbn [forallb].
  rewrite forallb_app. cbn [forallb].
  assert (H : forallb is_ascii (flat_map encode_char s) = true).
  { induction s as [|c s IH]; [reflexivity|].
    cbn [forallb] in Hs. apply andb_true_iff in Hs as [Hc Hs].
    cbn [flat_map]. rewrite forallb_app, encode_char_ascii, IH by assumption. reflexivity. }
  rewrite H. reflexivity.
Qed.

Lemma int_repr_ascii (z : Z) (ds : pystr) : int_repr z = Some ds -> forallb is_ascii ds = true.
Proof.
  unfold int_repr. intros Hz.
  destruct (decimal_digits_spec (Z.abs z) (Z.abs_nonneg z)) as (d & ds0 & Hdd & Hdg & _).
  rewrite Hdd in Hz. destruct (Nat.ltb max_str_digits _); [discriminate|].
  injection Hz as <-.
  assert (H : forallb is_ascii (d :: ds0) = true).
  { revert Hdg. generalize (d :: ds0). induction l as [|x l IH]; [reflexivity|].
    cbn [forallb]. intros H. apply andb_true_iff in H as [Hx Hl].
    apply digit_bounds in Hx. unfold is_ascii at 1.
    rewrite (proj2 (range_bool _ _ _)) by lia. apply IH, Hl. }
  destruct (z <? 0); [|exact H].
  change (forallb is_ascii (45 :: d :: ds0)) with (is_ascii 45 && forallb is_ascii (d :: ds0)).
  rewrite H. reflexivity.
Qed.

Lemma indent_ascii (l : nat) : forallb is_ascii (newline_indent l) = true.
Proof.
  unfold newline_indent. cbn [forallb]. induction (2 * l)%nat as [|n IH]; [reflexivity|].
  exact IH.
Qed.

Lemma join_ascii (sep : pystr) (chunks : list pystr) :
  forallb is_ascii sep = true -> Forall (fun c => forallb is_ascii c = true) chunks ->
  forallb is_ascii (join sep chunks) = true.
Proof.
  intros Hs Hc. induction Hc as [|c r Hc Hr IH]; [reflexivity|].
  destruct r as [|c' r]; [exact Hc|].
  rewrite join_cons2, !forallb_app, Hc, Hs. exact IH.
Qed.

(** ** Dicts: [dumps_at] then [scan_once] *)

Lemma dumps_at_dict (l : nat) (p : pystr * pyval) (kv : list (pystr * pyval)) :
  dumps_at l (PDict (p :: kv)) =
  match dict_chunks l (p :: kv) with
  | Some chunks =>
      Some (123 :: newline_indent (S l) ++ join (44 :: newline_indent (S l)) chunks ++
            newline_indent l ++ [125])
  | None => None
  end.
Proof.
  destruct p as [k x]. cbn [dumps_at dict_chunks].
  match goal with
  | |- context [?F kv] =>
      let H := fresh in
      assert (H : forall kv', F kv' = dict_chunks l kv')
        by (induction kv' as [|[k' x'] r IH]; [reflexivity|];
            cbn [dict_chunks]; rewrite <- IH; reflexivity);
      rewrite H; reflexivity
  end.
Qed.

Lemma dict_chunks_spec (l : nat) (Q : pystr * pyval -> pystr -> Prop)
  (kv : list (pystr * pyval)) :
  (forall p, In p kv -> exists a, dumps_at (S l) (snd p) = Some a /\ Q p a) ->
  exists chunks, dict_chunks l kv = Some chunks /\
    Forall2 (fun p ch => exists a, ch = encode_basestring_ascii (fst p) ++ [58; 32] ++ a /\ Q p a)
            kv chunks.
Proof.
  induction kv as [|[k x] r IH]; intros H; [exists []; split; constructor|].
  destruct (H (k, x) (or_introl eq_refl)) as (a & Ha & Hq).
  cbn [snd] in Ha.
  destruct IH as (chunks & Hc & Hf); [intros p Hp; apply H; right; exact Hp|].
  exists ((encode_basestring_ascii k ++ [58; 32] ++ a) :: chunks). split.
  - cbn [dict_chunks]. rewrite Ha, Hc. reflexivity.
  - constructor; [exists a; split; [reflexivity|exact Hq]|exact Hf].
Qed.

Lemma join_length (sep : pystr) (chunks : list pystr) :
  Forall (fun c => c <> []) chunks -> (List.length chunks <= List.length (join sep chunks))%nat.
Proof.
  intros H. induction H as [|c r Hc Hr IH]; [reflexivity|].
  destruct c as [|x c]; [congruence|].
  destruct r as [|c' r]; [cbn; lia|].
  rewrite join_cons2, !length_app. cbn [List.length] in *. unfold pystr in *. lia.
Qed.

Lemma value_dict (L V : nat) (kv : list (pystr * pyval)) :
  kv <> [] -> NoDup (map fst kv) ->
  (forall p, In p kv -> good_str (fst p) = true /\
     exists a, dumps_at (S L) (snd p) = Some a /\ forallb is_ascii a = true /\
       (exists c a', a = c :: a' /\ is_ws c = false) /\
       forall f rest', (V <= f)%nat -> delim rest' = true ->
         scan_once f (a ++ rest') = Some (snd p, rest')) ->
  exists a, dumps_at L (PDict kv) = Some a /\ forallb is_ascii a = true /\
    (exists c a', a = c :: a' /\ is_ws c = false) /\
    (List.length kv + 6 <= List.length a)%nat /\
    forall f rest', (List.length kv + V + 1 <= f)%nat ->
      scan_once f (a ++ rest') = Some (PDict kv, rest').
Proof.
  intros Hne Hnd Hm.
  destruct kv as [|p0 kv0]; [congruence|].
  destruct (dict_chunks_spec L
    (fun p a => good_str (fst p) = true /\ forallb is_ascii a = true /\
       (exists c a', a = c :: a' /\ is_ws c = false) /\
       forall f rest', (V <= f)%nat -> delim rest' = true ->
         scan_once f (a ++ rest') = Some (snd p, rest')) (p0 :: kv0)) as (chunks & Hc & Hf).
  { intros p Hp. destruct (Hm p Hp) as (Hk & a & Ha & Hasc & Hs & Hsc). exists a. auto. }
  rewrite dumps_at_dict, Hc. eexists. split; [reflexivity|].
  assert (Hchunk : Forall (fun ch => forallb is_ascii ch = true /\ exists t, ch = 34 :: t) chunks).
  { clear Hc Hm Hne Hnd. induction Hf as [|p ch kv' chs (a & -> & Hk & Hasc & _) _ IH];
      [constructor|]. constructor; [|exact IH]. split.
    - unfold good_str in Hk. apply andb_true_iff in Hk as [Hk _].
      rewrite !forallb_app, encode_ascii, Hasc by exact Hk. reflexivity.
    - unfold encode_basestring_ascii. eexists. reflexivity. }
  assert (Hsep : forallb is_ascii (44 :: newline_indent (S L)) = true)
    by (cbn [forallb]; rewrite indent_ascii; reflexivity).
  split; [|split; [|split]].
  - cbn [forallb]. rewrite !forallb_app, indent_ascii, join_ascii, indent_ascii;
      [reflexivity|exact Hsep|].
    eapply Forall_impl; [|exact Hchunk]. intros ch [H _]. exact H.
  - exists 123. eexists. split; reflexivity.
  - pose proof (Forall2_length Hf) as Hl.
    assert (Hj : (List.length chunks <=
                  List.length (join (44%Z :: newline_indent (S L)) chunks))%nat).
    { apply join_length. eapply Forall_impl; [|exact Hchunk].
      intros ch [_ [t ->]]. discriminate. }
    cbn [List.length]. rewrite !length_app. unfold newline_indent in *. cbn [List.length].
    rewrite repeat_length.
    unfold pystr in *. cbn [List.length] in Hl. lia.
  - intros f rest' Hfuel. destruct f as [|f]; [lia|].
    inversion Hf as [|? ch ? chs Hch Hrest]; subst.
    inversion Hchunk as [|? ? [_ [t Ht]] _]; subst.
    cbn [app scan_once Z.eqb Pos.eqb]. rewrite <- !app_assoc, skip_ws_indent.
    rewrite skip_ws_join by (exists 34, t; split; reflexivity).
    destruct (join_first (44 :: newline_indent (S L)) 34 t chs) as [u Hu].
    unfold pystr in *. rewrite Hu. cbn [app Z.eqb Pos.eqb].
    rewrite (app_comm_cons u _ 34), <- Hu. cbn [app].
    apply (parse_members L V rest' (p0 :: kv0) ((34 :: t) :: chs) [] f).
    + discriminate.
    + eapply Forall2_impl; [|exact Hf]. intros p ch' (a & Hch' & Hk & _ & Hs & Hsc).
      exists a. auto.
    + exact Hnd.
    + unfold pystr in *. cbn [List.length] in Hfuel |- *. lia.
Qed.

Lemma nodup_keys_NoDup {A} (kv : list (pystr * A)) : nodup_keys kv = true -> NoDup (map fst kv).
Proof.
  induction kv as [|[k x] r IH]; intros H; [constructor|].
  cbn [nodup_keys] in H. apply andb_true_iff in H as [H1 H2].
  cbn [map fst]. constructor; [|exact (IH H2)].
  intros Hin. apply in_map_iff in Hin as ([k' x'] & Hk & Hp). cbn [fst] in Hk. subst k'.
  apply negb_true_iff in H1. rewrite <- (Bool.not_true_iff_false) in H1. apply H1.
  apply existsb_exists. exists (k, x'). split; [exact Hp|].
  unfold key_eqb. cbn [fst]. destruct (list_eq_dec Z.eq_dec k k); congruence.
Qed.

Lemma int_repr_head (z : Z) (ds : pystr) :
  int_repr z = Some ds -> exists c ds', ds = c :: ds' /\ is_ws c = false.
Proof.
  unfold int_repr. intros Hz.
  destruct (decimal_digits_spec (Z.abs z) (Z.abs_nonneg z)) as (d & ds0 & Hdd & Hdg & _).
  rewrite Hdd in Hz. destruct (Nat.ltb max_str_digits _); [discriminate|].
  injection Hz as <-. cbn [forallb] in Hdg. apply andb_true_iff in Hdg as [Hd _].
  apply digit_bounds in Hd.
  destruct (z <? 0); [exists 45; eexists; split; reflexivity|].
  exists d, ds0. split; [reflexivity|]. unfold is_ws. neq_rewrite. reflexivity.
Qed.

Lemma record_value (L : nat) (e : user_entry) :
  good_entry e = true ->
  exists a, dumps_at L (entry_value e) = Some a /\ forallb is_ascii a = true /\
    (exists c a', a = c :: a' /\ is_ws c = false) /\
    forall f rest', (5 <= f)%nat -> scan_once f (a ++ rest') = Some (entry_value e, rest').
Proof.
  destruct e as [t d c]. unfold good_entry. cbn [ue_token ue_display ue_createdAt].
  intros H. apply andb_true_iff in H as [H Hc]. apply andb_true_iff in H as [Ht Hd].
  unfold int_fits in Hc. destruct (int_repr c) as [ds|] eqn:Hz; [|discriminate].
  unfold entry_value, user_record. cbn [ue_token ue_display ue_createdAt].
  assert (Hstr : forall s, good_str s = true ->
    exists a, dumps_at (S L) (PStr s) = Some a /\ forallb is_ascii a = true /\
      (exists c a', a = c :: a' /\ is_ws c = false) /\
      forall f rest', (1 <= f)%nat -> delim rest' = true ->
        scan_once f (a ++ rest') = Some (PStr s, rest')).
  { intros s Hs. exists (encode_basestring_ascii s). split; [reflexivity|]. split.
    - apply encode_ascii. unfold good_str in Hs. apply andb_true_iff in Hs. tauto.
    - split; [exists 34; eexists; split; reflexivity|].
      intros f rest' Hf _. destruct f as [|f]; [lia|]. apply scan_str, Hs. }
  destruct (value_dict L 1 [(lit "token", PStr t); (lit "display", PStr d);
                            (lit "createdAt", PInt c)]) as (a & Ha & Hasc & Hsh & _ & Hsc).
  - discriminate.
  - apply (nodup_keys_NoDup [(lit "token", PStr t); (lit "display", PStr d);
                             (lit "createdAt", PInt c)]). reflexivity.
  - intros p Hp. cbn [In] in Hp. destruct Hp as [<-|[<-|[<-|[]]]]; (split; [reflexivity|]).
    + apply Hstr, Ht.
    + apply Hstr, Hd.
    + exists ds. split; [exact Hz|]. split; [exact (int_repr_ascii c ds Hz)|].
      split; [exact (int_repr_head c ds Hz)|].
      intros f rest' Hf Hr. destruct f as [|f]; [lia|]. apply scan_int; assumption.
  - exists a. split; [exact Ha|]. split; [exact Hasc|]. split; [exact Hsh|].
    intros f rest' Hf. apply Hsc. cbn [List.length]. lia.
Qed.

Lemma registry_json (reg : list (pystr * user_entry)) :
  good_registry reg = true ->
  exists text, json_dumps (registry_value reg) = Some text /\
    forallb is_ascii text = true /\ json_loads text = Some (registry_value reg).
Proof.
  intros Hg. destruct reg as [|p0 reg0].
  - exists (lit "{}"). split; [reflexivity|]. split; reflexivity.
  - unfold good_registry in Hg. apply andb_true_iff in Hg as [Hnd Hall].
    rewrite forallb_forall in Hall.
    destruct (value_dict 0 5 (map (fun p => (fst p, entry_value (snd p))) (p0 :: reg0)))
      as (a & Ha & Hasc & (c & a' & Hsh & Hc) & Hlen & Hsc).
    + discriminate.
    + rewrite map_map. cbn [fst]. apply nodup_keys_NoDup, Hnd.
    + intros p Hp. apply in_map_iff in Hp as (q & <- & Hq).
      apply Hall, andb_true_iff in Hq as [Hk He]. cbn [fst snd].
      split; [exact Hk|].
      destruct (record_value 1 (snd q) He) as (b & Hb & Hbasc & Hbsh & Hbsc).
      exists b. split; [exact Hb|]. split; [exact Hbasc|]. split; [exact Hbsh|].
      intros f rest' Hf _. apply Hbsc, Hf.
    + exists a. split; [exact Ha|]. split; [exact Hasc|].
      unfold json_loads. subst a.
      cbn [forallb] in Hasc. apply andb_true_iff in Hasc as [Hc0 _].
      apply range_bool in Hc0. cbn [startswith].
      replace (65279 =? c) with false by (symmetry; apply Z.eqb_neq; lia).
      cbn [andb]. rewrite skip_ws_nonws by exact Hc.
      pose proof (Hsc (S (List.length (c :: a'))) [] ltac:(lia)) as H.
      rewrite app_nil_r in H. rewrite H. reflexivity.
Qed.

(** ** The registry helpers *)

Lemma load_users_registry_world {st} (gh : github st) (cfg : config) (w : world st) :
  snd (load_users_registry gh cfg w) =
  {| store := store w; calls := calls w ++ [CallGet (USERS_FILE_PATH cfg)] |}.
Proof.
  unfold load_users_registry, get_repo_file, bind, gh_get_m, ret, py_error, raise. cbn.
  destruct (gh_get gh (USERS_FILE_PATH cfg) (store w)) as [[sha b|items]|status text|]; cbn.
  - destruct (utf8_decode b) as [c|]; cbn; [destruct (json_loads c)|]; reflexivity.
  - reflexivity.
  - destruct (status =? 404); reflexivity.
  - reflexivity.
Qed.

Lemma load_users_registry_split {st} (gh : github st) (cfg : config) (w : world st) :
  load_users_registry gh cfg w =
  (fst (load_users_registry gh cfg w),
   {| store := store w; calls := calls w ++ [CallGet (USERS_FILE_PATH cfg)] |}).
Proof.
  rewrite <- (load_users_registry_world gh cfg w). destruct (load_users_registry gh cfg w). reflexivity.
Qed.

Lemma load_users_registry_file {st} (gh : github st) (cfg : config) (w : world st)
  (sha : pystr) (b : bytes) :
  gh_get gh (USERS_FILE_PATH cfg) (store w) = GetOk (FileData sha b) ->
  fst (load_users_registry gh cfg w) =
  match utf8_decode b with
  | Some c => inr (Some sha, match json_loads c with Some d => d | None => PDict [] end)
  | None => inl (Exn (lit "UnicodeDecodeError"))
  end.
Proof.
  intros Hg. unfold load_users_registry, get_repo_file, bind, gh_get_m, ret, py_error, raise.
  cbn. rewrite Hg.
  destruct (utf8_decode b) as [c|]; cbn; [destruct (json_loads c)|]; reflexivity.
Qed.

Lemma truthy_dict_get (fo : float_ops) (k : pystr) (v : pyval) (kv : list (pystr * pyval)) :
  dict_get k kv = Some v -> py_truthy fo (PDict kv) = true.
Proof. destruct kv; [discriminate|reflexivity]. Qed.

Lemma py_eq_str (fo : float_ops) (v : pyval) (t : pystr) :
  py_eq fo v (PStr t) = true -> v = PStr t.
Proof.
  destruct v; cbn; try discriminate.
  destruct (list_eq_dec Z.eq_dec s t) as [->|]; [reflexivity|discriminate].
Qed.

Lemma in_dot_us_dash_lit (c : Z) : in_dot_us_dash c = true <-> In c (lit "._-").
Proof.
  unfold in_dot_us_dash. cbn. rewrite !orb_true_iff, !Z.eqb_eq. intuition.
Qed.

(** ** Handler steps *)

Lemma int_str_m_ok {st} (z : Z) (s : pystr) (w w' : world st) :
  int_str_m z w = (inr s, w') -> str_int z = s /\ w' = w.
Proof.
  unfold int_str_m, str_int, ret, py_error, raise.
  destruct (int_repr z); intros H; [injection H; intros; subst; auto|discriminate].
Qed.

Lemma list_files_dicts {st} (fo : float_ops) (entries : list (list (pystr * pyval)))
  (w : world st) :
  list_files fo (map PDict entries) w =
  (inr (map file_summary (filter is_file_entry entries)), w).
Proof.
  induction entries as [|kv entries IH]; [reflexivity|].
  cbn [map list_files]. unfold bind at 1. cbn [get_m]. unfold ret at 1.
  unfold is_file_entry at 1. cbn [filter].
  assert (Heq : py_eq fo (or_none (dict_get (lit "type") kv)) (PStr (lit "file")) =
    match dict_get (lit "type") kv with
    | Some (PStr s) => if list_eq_dec Z.eq_dec s (lit "file") then true else false
    | _ => false
    end).
  { destruct (dict_get (lit "type") kv) as [v|]; [|reflexivity].
    destruct v; reflexivity. }
  rewrite Heq.
  destruct (match dict_get (lit "type") kv with
            | Some (PStr s) => if list_eq_dec Z.eq_dec s (lit "file") then true else false
            | _ => false
            end).
  - cbv beta iota zeta delta [bind get_m ret]. rewrite IH. reflexivity.
  - exact IH.
Qed.

(** ** Normalised user ids and registry growth *)









Lemma registry_get_fresh (u : pystr) (reg : list (pystr * user_entry)) :
  ~ In u (map fst reg) ->
  dict_get u (map (fun p => (fst p, entry_value (snd p))) reg) = None.
Proof.
  induction reg as [|[k e] reg IH]; intros Hn; [reflexivity|].
  cbn [map fst snd dict_get]. cbn [map fst In] in Hn.
  destruct (list_eq_dec Z.eq_dec u k) as [->|]; [tauto|]. apply IH. tauto.
Qed.


Lemma good_registry_snoc (reg : list (pystr * user_entry)) (u : pystr) (e : user_entry) :
  good_registry reg = true -> ~ In u (map fst reg) -> good_str u = true ->
  good_entry e = true -> good_registry (reg ++ [(u, e)]) = true.
Proof.
  unfold good_registry. rewrite !andb_true_iff. intros [Hn Hf] Hu Hs He. split.
  - clear Hf. induction reg as [|[k x] reg IH]; [reflexivity|].
    cbn [app nodup_keys] in *. cbn [map fst In] in Hu.
    apply andb_true_iff in Hn as [Hk Hn]. apply andb_true_iff. split.
    + apply negb_true_iff in Hk. rewrite existsb_app, Hk. cbn. unfold key_eqb.
      destruct (list_eq_dec Z.eq_dec k u) as [->|]; [tauto|reflexivity].
    + apply IH; tauto.
  - rewrite forallb_app, Hf. cbn. rewrite Hs, He. reflexivity.
Qed.

Lemma set_item_fresh {st} (reg : list (pystr * user_entry)) (u : pystr) (e : user_entry) :
  ~ In u (map fst reg) ->
  set_item (st := st) (registry_value reg) u (entry_value e) = ret (registry_value (reg ++ [(u, e)])).
Proof.
  intros Hn. unfold set_item, registry_value. rewrite dict_set_fresh, map_app; [reflexivity|].
  rewrite map_map. exact Hn.
Qed.

Lemma match_nonempty {A B : Type} (l : list A) (x y : B) :
  l <> [] -> match l with [] => x | _ :: _ => y end = y.
Proof. destruct l; [contradiction|reflexivity]. Qed.

(** * The claims *)

(** C6: [safe_filename] keeps every character that is alphanumeric (for the
    given [str.isalnum]) or one of [._-], and replaces every other character
    by [_]; the result has the length of the input. *)
Theorem safe_filename_charwise (is_alnum : Z -> bool) (s : pystr) :
  List.length (safe_filename is_alnum s) = List.length s /\
  forall i c, nth_error s i = Some c ->
    ((is_alnum c = true \/ In c (lit "._-")) ->
       nth_error (safe_filename is_alnum s) i = Some c) /\
    ((is_alnum c = false /\ ~ In c (lit "._-")) ->
       nth_error (safe_filename is_alnum s) i = Some 95).
Proof.
  unfold safe_filename. split; [apply length_map|].
  intros i c Hi. rewrite nth_error_map, Hi. cbn [option_map].
  split.
  - intros [H|H]; [rewrite H; reflexivity|].
    apply in_dot_us_dash_lit in H. rewrite H, orb_true_r. reflexivity.
  - intros [H1 H2]. rewrite H1. cbn [orb].
    destruct (in_dot_us_dash c) eqn:E; [apply in_dot_us_dash_lit in E; contradiction|].
    reflexivity.
Qed.

(** C10: [safe_filename] is idempotent. *)
Theorem safe_filename_idempotent (is_alnum : Z -> bool) (s : pystr) :
  safe_filename is_alnum (safe_filename is_alnum s) = safe_filename is_alnum s.
Proof.
  unfold safe_filename. rewrite map_map. apply map_ext. intros c.
  destruct (is_alnum c || in_dot_us_dash c) eqn:E; [rewrite E; reflexivity|].
  replace (in_dot_us_dash 95) with true by reflexivity. rewrite orb_true_r. reflexivity.
Qed.



(** The 403 of [upload] for a request with a file part and wrong credentials. *)
Lemma upload_bad_token_403 {st} (gh : github st) (cfg : config) (fo : float_ops)
  (is_alnum : Z -> bool) (w : world st) (f : upload_file) (uid tok : option pystr)
  (now_ms : Z) (sha : option pystr) (users : list (pystr * pyval)) :
  strip (form_str uid) <> [] ->
  strip (form_str tok) <> [] ->
  fst (load_users_registry gh cfg w) = inr (sha, PDict users) ->
  match dict_get (strip (form_str uid)) users with
  | None => True
  | Some e => py_truthy fo e = false \/
      exists kv, e = PDict kv /\ dict_get (lit "token") kv <> Some (PStr (strip (form_str tok)))
  end ->
  run (upload gh cfg fo is_alnum (Some f) uid tok now_ms) w =
    (Json 403 (PDict [kv_str "error" "Invalid userId or token"]),
     {| store := store w; calls := calls w ++ [CallGet (USERS_FILE_PATH cfg)] |}).
Proof.
  intros Hu Ht Hload Hent.
  unfold run, upload.
  destruct (strip (form_str uid)) as [|cu ru] eqn:Eu; [contradiction|].
  destruct (strip (form_str tok)) as [|ct rt] eqn:Et; [contradiction|].
  cbv beta iota zeta delta [bind].
  rewrite (load_users_registry_split gh cfg w), Hload. cbn [snd get_m].
  unfold ret at 1.
  destruct (dict_get (cu :: ru) users) as [e|]; [|reflexivity].
  destruct Hent as [Hf|[kv [-> Hk]]].
  - rewrite Hf. reflexivity.
  - destruct kv as [|p kv]; [reflexivity|]. cbn [py_truthy negb get_m].
    unfold ret at 1.
    destruct (py_eq fo (or_none (dict_get (lit "token") (p :: kv))) (PStr (ct :: rt))) eqn:Eq.
    + apply py_eq_str in Eq. destruct (dict_get (lit "token") (p :: kv)); cbn in Eq;
        [subst; contradiction|discriminate].
    + reflexivity.
Qed.
(** C2 (amended): a request without a file part is answered 400 "No file
    uploaded", and one with a file part whose stripped [userId] or [token] is
    empty 400 "userId and token required", both without any call. When a
    file part is present, [userId] and [token] are non-empty after stripping
    and the registry has no entry for [userId], a falsy one, or a record whose
    [token] differs from the one supplied, the upload answers 403 "Invalid
    userId or token" whatever the file's name, content or size, after
    reading only the registry. *)
Theorem upload_bad_token_forbidden {st} (gh : github st) (cfg : config) (fo : float_ops)
  (is_alnum : Z -> bool) (w : world st) :
  (forall uid tok now_ms,
     run (upload gh cfg fo is_alnum None uid tok now_ms) w =
       (Json 400 (PDict [kv_str "error" "No file uploaded"]), w)) /\
  (forall f uid tok now_ms,
     strip (form_str uid) = [] \/ strip (form_str tok) = [] ->
     run (upload gh cfg fo is_alnum (Some f) uid tok now_ms) w =
       (Json 400 (PDict [kv_str "error" "userId and token required"]), w)) /\
  (forall f uid tok now_ms sha users,
     strip (form_str uid) <> [] ->
     strip (form_str tok) <> [] ->
     fst (load_users_registry gh cfg w) = inr (sha, PDict users) ->
     match dict_get (strip (form_str uid)) users with
     | None => True
     | Some e => py_truthy fo e = false \/
         exists kv, e = PDict kv /\ dict_get (lit "token") kv <> Some (PStr (strip (form_str tok)))
     end ->
     run (upload gh cfg fo is_alnum (Some f) uid tok now_ms) w =
       (Json 403 (PDict [kv_str "error" "Invalid userId or token"]),
        {| store := store w; calls := calls w ++ [CallGet (USERS_FILE_PATH cfg)] |})).
Proof.
  split; [reflexivity|]. split.
  - intros f uid tok now_ms Hempty. unfold run, upload.
    destruct (strip (form_str uid)) as [|cu ru]; [reflexivity|].
    destruct (strip (form_str tok)) as [|ct rt]; [reflexivity|].
    destruct Hempty; discriminate.
  - intros f uid tok now_ms sha users. apply upload_bad_token_403.
Qed.


(** C3 (amended): a registry of distinct userIds whose strings hold no lone
    high surrogate followed by a low one and whose timestamps have at most
    4300 digits is serialized by [save_users_registry]'s payload to bytes
    which, read back by [load_users_registry], give the same registry, with
    the old sha. *)
Theorem registry_round_trip {st} (gh : github st) (cfg : config)
  (reg : list (pystr * user_entry)) :
  good_registry reg = true ->
  exists b, registry_payload (registry_value reg) = Some b /\
    forall (sha : pystr) (w : world st),
      gh_get gh (USERS_FILE_PATH cfg) (store w) = GetOk (FileData sha b) ->
      fst (load_users_registry gh cfg w) = inr (Some sha, registry_value reg).
Proof.
  intros Hg. destruct (registry_json reg Hg) as [text [Hd [Ha Hl]]].
  destruct (utf8_ascii text Ha) as [He Hdc].
  exists text. unfold registry_payload. rewrite Hd. split; [exact He|].
  intros sha w Hget. rewrite (load_users_registry_file gh cfg w sha text Hget), Hdc, Hl.
  reflexivity.
Qed.

(** C4 (amended): when the registry file is present, [load_users_registry]
    returns its sha with an empty dict if its text does not parse as JSON,
    with whatever JSON value it parses to otherwise (a list, a number, ...),
    and raises [UnicodeDecodeError] if its bytes are not UTF-8. *)
Theorem load_registry_present {st} (gh : github st) (cfg : config) (w : world st)
  (sha : pystr) (b : bytes) :
  gh_get gh (USERS_FILE_PATH cfg) (store w) = GetOk (FileData sha b) ->
  (forall c, utf8_decode b = Some c -> json_loads c = None ->
     fst (load_users_registry gh cfg w) = inr (Some sha, PDict [])) /\
  (forall c d, utf8_decode b = Some c -> json_loads c = Some d ->
     fst (load_users_registry gh cfg w) = inr (Some sha, d)) /\
  (utf8_decode b = None ->
     fst (load_users_registry gh cfg w) = inl (Exn (lit "UnicodeDecodeError"))).
Proof.
  intros Hget. rewrite (load_users_registry_file gh cfg w sha b Hget).
  repeat split.
  - intros c Hc Hj. rewrite Hc, Hj. reflexivity.
  - intros c d Hc Hj. rewrite Hc, Hj. reflexivity.
  - intros Hc. rewrite Hc. reflexivity.
Qed.

(** C5: a register request whose userId, stripped and with spaces replaced
    by [_], is non-empty, at most 64 long and already in the loaded registry
    answers 409 "userId already taken"; the store is unchanged and the only
    call made is the GET of the registry. *)
Theorem register_taken_conflict {st} (gh : github st) (cfg : config) (fo : float_ops)
  (str_of : pyval -> pystr) (w : world st) (kv : list (pystr * pyval)) (raw token : pystr)
  (now_ms : Z) (res : option pystr * pyval) :
  dict_get (lit "userId") kv = Some (PStr raw) ->
  strip raw <> [] ->
  (List.length (replace_space (strip raw)) <= 64)%nat ->
  fst (load_users_registry gh cfg w) = inr res ->
  py_contains_str (replace_space (strip raw)) (snd res) = Some true ->
  run (register gh cfg fo str_of (Some (PDict kv)) token now_ms) w =
    (Json 409 (PDict [kv_str "error" "userId already taken"]),
     {| store := store w; calls := calls w ++ [CallGet (USERS_FILE_PATH cfg)] |}).
Proof.
  intros Hu Hne Hlen Hload Hin.
  assert (Hraw : py_truthy fo (PStr raw) = true).
  { destruct raw; [contradiction|reflexivity]. }
  cbv beta iota zeta delta [run register bind ret get_m or_none py_or].
  rewrite (truthy_dict_get fo _ _ _ Hu), Hu. cbv beta iota. rewrite Hraw. cbn [py_str].
  destruct (strip raw) as [|c r] eqn:Es; [contradiction|].
  assert (Hlt : Nat.ltb 64 (List.length (replace_space (c :: r))) = false)
    by (apply Nat.ltb_ge; exact Hlen).
  rewrite Hlt. rewrite (load_users_registry_split gh cfg w), Hload.
  unfold contains. rewrite Hin. reflexivity.
Qed.

(** C7 (amended): when an upload answers 200, its body is
    [{success: true, url, path}] with [path] equal to
    [NOTES_FOLDER/userId/timestamp_name], where [userId] is the stripped
    form field, [timestamp] the decimal millisecond time and [name] the
    [safe_filename] of the original filename, or of "file" when the part
    has no filename or an empty one; [url] is
    [https://GITHUB_OWNER.github.io/GITHUB_REPO/path]. *)
Theorem upload_success_path {st} (gh : github st) (cfg : config) (fo : float_ops)
  (is_alnum : Z -> bool) (w : world st) (f : upload_file) (uid tok : option pystr)
  (now_ms : Z) (body : pyval) :
  fst (run (upload gh cfg fo is_alnum (Some f) uid tok now_ms) w) = Json 200 body ->
  let repo_path :=
    NOTES_FOLDER cfg ++ [47] ++ strip (form_str uid) ++ [47] ++ str_int now_ms ++ [95] ++
    safe_filename is_alnum (match filename f with
                            | Some ((_ :: _) as n) => n
                            | _ => lit "file"
                            end) in
  body = PDict [(lit "success", PBool true); (lit "url", PStr (public_url cfg repo_path));
                (lit "path", PStr repo_path)].
Proof.
  intros H. unfold run, upload in H.
  cbv beta iota zeta delta [bind ret get_m err invalid_credentials try_except py_error raise] in H.
  destruct (strip (form_str uid)) as [|cu ru]; cbv beta iota in H; [(cbn [fst] in H; congruence)|].
  destruct (strip (form_str tok)) as [|ct rt]; cbv beta iota in H; [(cbn [fst] in H; congruence)|].
  destruct (load_users_registry gh cfg w) as [[e|[sha reg]] w1];
    cbv beta iota in H; cbn [snd] in H; [(cbn [fst] in H; congruence)|].
  destruct reg as [| | | | | |regkv]; cbv beta iota in H; try (cbn [fst] in H; congruence).
  destruct (dict_get (cu :: ru) regkv) as [ent|]; cbv beta iota in H; [|(cbn [fst] in H; congruence)].
  destruct (negb (py_truthy fo ent)); cbv beta iota in H; [(cbn [fst] in H; congruence)|].
  destruct ent as [| | | | | |ekv]; cbv beta iota in H; try (cbn [fst] in H; congruence).
  destruct (negb (py_eq fo _ _)); cbv beta iota in H; [(cbn [fst] in H; congruence)|].
  destruct (int_str_m now_ms w1) as [[e|ts] w2] eqn:Ets; cbv beta iota in H; [(cbn [fst] in H; congruence)|].
  apply int_str_m_ok in Ets. destruct Ets as [<- ->].
  destruct (_ >? _); cbv beta iota in H; [(cbn [fst] in H; congruence)|].
  destruct (put_repo_file gh _ _ _ _ _) as [[e|j] w3]; cbv beta iota in H.
  - destruct e; cbv beta iota delta [err_detail ret] in H; cbn [fst] in H; congruence.
  - injection H as <-. reflexivity.
Qed.

(** C8: for a userId present in the loaded registry, [list_user] answers
    200 with the [name], [path] and [download_url] of exactly the entries
    of type "file" of a directory listing, 200 with no files when the
    directory GET answers 404, 500 "GitHub list failed" on any other status
    and Flask's 500 when the request itself fails. *)
Theorem list_user_listing {st} (gh : github st) (cfg : config) (fo : float_ops)
  (w : world st) (u : pystr) (res : option pystr * pyval) :
  fst (load_users_registry gh cfg w) = inr res ->
  py_contains_str (strip u) (snd res) = Some true ->
  let dir := NOTES_FOLDER cfg ++ [47] ++ strip u in
  (forall entries, gh_get gh dir (store w) = GetOk (DirData (PList (map PDict entries))) ->
     fst (run (list_user gh cfg fo u) w) =
       files_json (map file_summary (filter is_file_entry entries))) /\
  (forall text, gh_get gh dir (store w) = GetStatus 404 text ->
     fst (run (list_user gh cfg fo u) w) = files_json []) /\
  (forall status text, status <> 404 -> gh_get gh dir (store w) = GetStatus status text ->
     fst (run (list_user gh cfg fo u) w) =
       Json 500 (PDict [kv_str "error" "GitHub list failed"; (lit "detail", PStr text)])) /\
  (gh_get gh dir (store w) = GetFail -> fst (run (list_user gh cfg fo u) w) = InternalError).
Proof.
  intros Hload Hin. cbv zeta.
  unfold list_user, run. cbv beta iota zeta delta [bind].
  rewrite (load_users_registry_split gh cfg w), Hload.
  unfold contains. rewrite Hin. cbv beta iota zeta delta [ret negb gh_get_m]. cbn [store].
  repeat split.
  - intros entries He. rewrite He. cbn [py_iter]. rewrite list_files_dicts.
    reflexivity.
  - intros text He. rewrite He. reflexivity.
  - intros status text Hs He. rewrite He.
    replace (status =? 404) with false by (symmetry; apply Z.eqb_neq; exact Hs). reflexivity.
  - intros He. rewrite He. reflexivity.
Qed.


(** * Examples on the in-memory repository *)

(** ** C1 *)



(** The namespace of "a" holds the files of "a/b": "a", with its own token,
    deletes a note of "a/b". *)
Lemma delete_nested_namespace :
  run (delete_file (mem_github default_config) default_config fo0 str0
         (Some (PDict [(lit "filePath", PStr (lit "notes/a/b/1_x.txt"));
                       (lit "userId", PStr (lit "a")); (lit "token", PStr (lit "ta"))])))
      (mem_world nested_store) =
    (Json 200 (PDict [(lit "success", PBool true)]),
     {| store := registry_store (payload_of (registry_value nested_registry));
        calls := [CallGet (lit "users.json"); CallGet (lit "notes/a/b/1_x.txt");
                  CallDelete (lit "notes/a/b/1_x.txt")] |}).
Proof. vm_compute. reflexivity. Qed.

(** ** C2 *)

Lemma upload_bad_token_forbidden_witness :
  run (upload (mem_github default_config) default_config fo0 ascii_isalnum
         (Some notes_file) (Some (lit "alice")) (Some (lit "nope")) 1)
      (mem_world alice_store) =
    (Json 403 (PDict [kv_str "error" "Invalid userId or token"]),
     {| store := store (mem_world alice_store);
        calls := calls (mem_world alice_store) ++ [CallGet (USERS_FILE_PATH default_config)] |}).
Proof.
  apply (proj2 (proj2 (upload_bad_token_forbidden (mem_github default_config) default_config
           fo0 ascii_isalnum (mem_world alice_store))) notes_file (Some (lit "alice"))
           (Some (lit "nope")) 1 (fst alice_loaded) alice_users).
  - vm_compute. discriminate.
  - vm_compute. discriminate.
  - vm_compute. reflexivity.
  - vm_compute. right. eexists. split; [reflexivity|discriminate].
Defined.

(** Without a file part, a wrong token is answered 400, not 403. *)
Lemma upload_bad_token_forbidden_counterexample :
  run (upload (mem_github default_config) default_config fo0 ascii_isalnum
         None (Some (lit "alice")) (Some (lit "nope")) 1) (mem_world alice_store) =
    (Json 400 (PDict [kv_str "error" "No file uploaded"]), mem_world alice_store).
Proof. vm_compute. reflexivity. Qed.

(** ** C3 *)

Lemma registry_round_trip_witness :
  exists b, registry_payload (registry_value alice_registry) = Some b /\
    forall (sha : pystr) (w : world memfs),
      gh_get (mem_github default_config) (USERS_FILE_PATH default_config) (store w) =
        GetOk (FileData sha b) ->
      fst (load_users_registry (mem_github default_config) default_config w) =
        inr (Some sha, registry_value alice_registry).
Proof.
  apply (registry_round_trip (mem_github default_config) default_config alice_registry).
  vm_compute. reflexivity.
Defined.

(** A display name made of the two halves of a surrogate pair is saved
    escaped, and read back as the one character they encode. *)
Lemma registry_round_trip_counterexample :
  registry_payload (registry_value surrogate_registry) =
    Some (payload_of (registry_value surrogate_registry)) /\
  fst (load_users_registry (mem_github default_config) default_config
         (mem_world (registry_store (payload_of (registry_value surrogate_registry))))) =
    inr (Some (mem_sha (payload_of (registry_value surrogate_registry))),
         registry_value joined_registry) /\
  registry_value joined_registry <> registry_value surrogate_registry.
Proof.
  split; [vm_compute; reflexivity|]. split; [vm_compute; reflexivity|discriminate].
Qed.

(** ** C4 *)

Lemma load_registry_present_witness :
  (forall c, utf8_decode [91; 93] = Some c -> json_loads c = None ->
     fst (load_users_registry (mem_github default_config) default_config
            (mem_world (registry_store [91; 93]))) = inr (Some (mem_sha [91; 93]), PDict [])) /\
  (forall c d, utf8_decode [91; 93] = Some c -> json_loads c = Some d ->
     fst (load_users_registry (mem_github default_config) default_config
            (mem_world (registry_store [91; 93]))) = inr (Some (mem_sha [91; 93]), d)) /\
  (utf8_decode [91; 93] = None ->
     fst (load_users_registry (mem_github default_config) default_config
            (mem_world (registry_store [91; 93]))) = inl (Exn (lit "UnicodeDecodeError"))).
Proof.
  apply (load_registry_present (mem_github default_config) default_config
           (mem_world (registry_store [91; 93])) (mem_sha [91; 93]) [91; 93]).
  vm_compute. reflexivity.
Defined.

(** A registry file holding [[]] loads as a list, and one holding the byte
    255 raises. *)
Lemma load_registry_present_counterexample :
  fst (load_users_registry (mem_github default_config) default_config
         (mem_world (registry_store [91; 93]))) = inr (Some (mem_sha [91; 93]), PList []) /\
  fst (load_users_registry (mem_github default_config) default_config
         (mem_world (registry_store [255]))) = inl (Exn (lit "UnicodeDecodeError")).
Proof. split; vm_compute; reflexivity. Qed.

(** ** C5 *)

Lemma register_taken_conflict_witness :
  run (register (mem_github default_config) default_config fo0 str0
         (Some (PDict [(lit "userId", PStr (lit " alice "))])) (lit "ffff") 5)
      (mem_world alice_store) =
    (Json 409 (PDict [kv_str "error" "userId already taken"]),
     {| store := store (mem_world alice_store);
        calls := calls (mem_world alice_store) ++ [CallGet (USERS_FILE_PATH default_config)] |}).
Proof.
  apply (register_taken_conflict (mem_github default_config) default_config fo0 str0
           (mem_world alice_store) [(lit "userId", PStr (lit " alice "))] (lit " alice ")
           (lit "ffff") 5 alice_loaded).
  - reflexivity.
  - vm_compute. discriminate.
  - vm_compute. lia.
  - vm_compute. reflexivity.
  - vm_compute. reflexivity.
Defined.

(** ** C7 *)

Lemma upload_success_path_witness :
  let body := PDict [(lit "success", PBool true);
                     (lit "url", PStr (public_url default_config
                                        (lit "notes/alice/1700000000123_my_notes.pdf")));
                     (lit "path", PStr (lit "notes/alice/1700000000123_my_notes.pdf"))] in
  let repo_path :=
    NOTES_FOLDER default_config ++ [47] ++ strip (form_str (Some (lit "alice"))) ++ [47] ++
    str_int 1700000000123 ++ [95] ++
    safe_filename ascii_isalnum (match filename notes_file with
                                 | Some ((_ :: _) as n) => n
                                 | _ => lit "file"
                                 end) in
  body = PDict [(lit "success", PBool true);
                (lit "url", PStr (public_url default_config repo_path));
                (lit "path", PStr repo_path)].
Proof.
  intros body.
  apply (upload_success_path (mem_github default_config) default_config fo0 ascii_isalnum
           (mem_world alice_store) notes_file (Some (lit "alice")) (Some (lit "0f3a"))
           1700000000123 body).
  vm_compute. reflexivity.
Defined.

(** A part with an empty filename is stored as [..._file], not as
    [safe_filename("")]. *)
Lemma upload_success_path_counterexample :
  fst (run (upload (mem_github default_config) default_config fo0 ascii_isalnum
              (Some unnamed_file) (Some (lit "alice")) (Some (lit "0f3a")) 1700000000123)
           (mem_world alice_store)) =
    Json 200 (PDict [(lit "success", PBool true);
                     (lit "url", PStr (public_url default_config
                                        (lit "notes/alice/1700000000123_file")));
                     (lit "path", PStr (lit "notes/alice/1700000000123_file"))]) /\
  lit "notes/alice/1700000000123_file" <>
    NOTES_FOLDER default_config ++ [47] ++ lit "alice" ++ [47] ++ str_int 1700000000123 ++
    [95] ++ safe_filename ascii_isalnum [].
Proof. split; vm_compute; [reflexivity|discriminate]. Qed.

(** ** C8 *)

Lemma list_user_listing_witness :
  let dir := NOTES_FOLDER default_config ++ [47] ++ strip (lit "alice") in
  (forall entries,
     gh_get (mem_github default_config) dir (store (mem_world listed_store)) =
       GetOk (DirData (PList (map PDict entries))) ->
     fst (run (list_user (mem_github default_config) default_config fo0 (lit "alice"))
              (mem_world listed_store)) =
       files_json (map file_summary (filter is_file_entry entries))) /\
  (forall text,
     gh_get (mem_github default_config) dir (store (mem_world listed_store)) =
       GetStatus 404 text ->
     fst (run (list_user (mem_github default_config) default_config fo0 (lit "alice"))
              (mem_world listed_store)) = files_json []) /\
  (forall status text, status <> 404 ->
     gh_get (mem_github default_config) dir (store (mem_world listed_store)) =
       GetStatus status text ->
     fst (run (list_user (mem_github default_config) default_config fo0 (lit "alice"))
              (mem_world listed_store)) =
       Json 500 (PDict [kv_str "error" "GitHub list failed"; (lit "detail", PStr text)])) /\
  (gh_get (mem_github default_config) dir (store (mem_world listed_store)) = GetFail ->
     fst (run (list_user (mem_github default_config) default_config fo0 (lit "alice"))
              (mem_world listed_store)) = InternalError).
Proof.
  apply (list_user_listing (mem_github default_config) default_config fo0
           (mem_world listed_store) (lit "alice") alice_loaded).
  - vm_compute. reflexivity.
  - vm_compute. reflexivity.
Defined.

(** ** C9 *)



(** [check_user] strips the id but does not replace its spaces as [register]
    does: after registering "al ice" (stored as "al_ice"), a check of
    "al ice" reports it available. *)
Lemma register_check_space_mismatch :
  let (r, w') := run (register (mem_github default_config) default_config fo0 str0
                        (Some (PDict [(lit "userId", PStr (lit "al ice"))]))
                        (lit "0f3a") 1700000000000) (mem_world []) in
  r = Json 200 (PDict [(lit "success", PBool true); (lit "userId", PStr (lit "al_ice"));
                       (lit "token", PStr (lit "0f3a"))]) /\
  fst (run (check_user (mem_github default_config) default_config (lit "al ice")) w') =
    Json 200 (PDict [(lit "available", PBool true)]).
Proof. vm_compute. split; reflexivity. Qed.

(** * Further properties of the handlers *)

(** ** Helpers *)

Lemma py_eq_str_refl (fo : float_ops) (s : pystr) : py_eq fo (PStr s) (PStr s) = true.
Proof. cbn. destruct (list_eq_dec Z.eq_dec s s); [reflexivity|contradiction]. Qed.

Lemma startswith_app_l (p s q : pystr) : startswith (p ++ s) (p ++ q) = startswith s q.
Proof. induction p as [|c p IH]; cbn; [reflexivity|]. rewrite Z.eqb_refl, IH. reflexivity. Qed.

Lemma startswith_in (s p : pystr) (x : Z) : startswith s p = true -> In x p -> In x s.
Proof.
  revert s. induction p as [|c p IH]; intros s H Hx; [destruct Hx|].
  destruct s as [|d s]; [discriminate|]. cbn in H. apply andb_true_iff in H as [Hc H].
  apply Z.eqb_eq in Hc. subst d. destruct Hx as [<-|Hx]; [left; reflexivity|right; eauto].
Qed.

Lemma startswith_nil (s : pystr) : startswith s [] = true.
Proof. destruct s; reflexivity. Qed.

Lemma startswith_slash (u u' safe : pystr) :
  ~ In 47 safe ->
  startswith (u ++ [47] ++ safe) (u' ++ [47]) = true <->
  u' = u \/ exists r, u = u' ++ [47] ++ r.
Proof.
  intros Hs. revert u. induction u' as [|a u' IH]; intros u.
  - destruct u as [|c v]; cbn [startswith app].
    + split; [intros _; left; reflexivity|intros _; apply startswith_nil].
    + destruct (Z.eqb_spec 47 c) as [<-|Hc]; cbn [andb]; rewrite ?startswith_nil.
      * split; [intros _; right; exists v; reflexivity|reflexivity].
      * split; [cbn; intros H; discriminate H|]. intros [H|[r H]]; [discriminate|]. cbn in H. congruence.
  - destruct u as [|c v]; cbn [startswith app].
    + split; [|intros [H|[r H]]; discriminate].
      intros H. apply andb_true_iff in H as [_ H].
      exfalso. apply Hs. apply (startswith_in _ _ 47 H). apply in_or_app. right. left. reflexivity.
    + rewrite andb_true_iff, IH. split.
      * intros [Hc [H|[r H]]]; apply Z.eqb_eq in Hc; subst; [left|right; exists r]; reflexivity.
      * intros [H|[r H]]; injection H; intros; subst; split; try apply Z.eqb_refl;
          [left|right; exists r]; reflexivity.
Qed.

Lemma digits_rev_no_slash (fuel : nat) (n : Z) : 0 <= n -> ~ In 47 (digits_rev fuel n).
Proof.
  revert n. induction fuel as [|fuel IH]; intros n Hn; cbn [digits_rev]; [tauto|].
  destruct (n <? 10); cbn [In].
  - intros [H|[]]. lia.
  - intros [H|H].
    + pose proof (Z.mod_pos_bound n 10). lia.
    + revert H. apply IH. apply Z.div_pos; lia.
Qed.

Lemma int_repr_no_slash (z : Z) (ts : pystr) : int_repr z = Some ts -> ~ In 47 ts.
Proof.
  unfold int_repr, decimal_digits. destruct (Nat.ltb _ _); [discriminate|].
  intros H. injection H as <-. intros Hin.
  assert (Hd : ~ In 47 (rev (digits_rev (S (Z.to_nat (Z.log2 (Z.abs z)))) (Z.abs z)))).
  { rewrite <- in_rev. apply digits_rev_no_slash. lia. }
  destruct (z <? 0); [destruct Hin as [H|H]; [discriminate|contradiction]|contradiction].
Qed.

Lemma safe_filename_no_slash (is_alnum : Z -> bool) (name : pystr) :
  is_alnum 47 = false -> ~ In 47 (safe_filename is_alnum name).
Proof.
  intros Ha Hin. unfold safe_filename in Hin. apply in_map_iff in Hin as [c [Hc _]].
  destruct (is_alnum c || in_dot_us_dash c) eqn:E; [|discriminate].
  subst c. rewrite Ha in E. discriminate.
Qed.

(** ** Endpoints *)

(** X1: a string holding no split surrogate pair is dumped as ASCII text
    that [json.loads] reads back as the same string. *)
Theorem json_string_round_trip (s : pystr) :
  good_str s = true ->
  exists t, json_dumps (PStr s) = Some t /\ forallb is_ascii t = true /\
    json_loads t = Some (PStr s).
Proof.
  intros Hg. exists (encode_basestring_ascii s). split; [reflexivity|]. split.
  - apply encode_ascii. unfold good_str in Hg. apply andb_true_iff in Hg. apply Hg.
  - unfold json_loads. cbn [encode_basestring_ascii startswith].
    replace (65279 =? 34) with false by reflexivity. cbn [andb].
    replace (skip_ws (encode_basestring_ascii s)) with (encode_basestring_ascii s)
      by (unfold encode_basestring_ascii; rewrite skip_ws_nonws by reflexivity; reflexivity).
    pose proof (scan_str (List.length (encode_basestring_ascii s)) s [] Hg) as H.
    rewrite app_nil_r in H. rewrite H. reflexivity.
Qed.

(** X2: once the registry loads as a dict, [check_user] answers
    [available] exactly when the stripped id is not a key, after reading only
    the registry and without writing. *)
Theorem check_user_answer {st} (gh : github st) (cfg : config) (w : world st) (u : pystr)
  (sha : option pystr) (users : list (pystr * pyval)) :
  fst (load_users_registry gh cfg w) = inr (sha, PDict users) ->
  run (check_user gh cfg u) w =
    (Json 200 (PDict [(lit "available", PBool (negb (dict_mem (strip u) users)))]),
     {| store := store w; calls := calls w ++ [CallGet (USERS_FILE_PATH cfg)] |}).
Proof.
  intros Hload. unfold run, check_user. cbv beta iota zeta delta [bind].
  rewrite (load_users_registry_split gh cfg w), Hload. reflexivity.
Qed.

(** X3: [list_user] of an id the loaded registry does not hold answers 404
    after reading only the registry; the notes folder is never listed. *)
Theorem list_user_unknown {st} (gh : github st) (cfg : config) (fo : float_ops)
  (w : world st) (u : pystr) (res : option pystr * pyval) :
  fst (load_users_registry gh cfg w) = inr res ->
  py_contains_str (strip u) (snd res) = Some false ->
  run (list_user gh cfg fo u) w =
    (Json 404 (PDict [kv_str "error" "Unknown userId"]),
     {| store := store w; calls := calls w ++ [CallGet (USERS_FILE_PATH cfg)] |}).
Proof.
  intros Hload Hin. unfold run, list_user. cbv beta iota zeta delta [bind].
  rewrite (load_users_registry_split gh cfg w), Hload.
  unfold contains. rewrite Hin. reflexivity.
Qed.

(** X4: [register] refuses a missing body, an id that strips to empty, and
    an id longer than 64 characters once normalised, with 400 and without
    any call to the repository. *)
Theorem register_rejects_id {st} (gh : github st) (cfg : config) (fo : float_ops)
  (str_of : pyval -> pystr) (w : world st) (kv : list (pystr * pyval)) (raw token : pystr)
  (now_ms : Z) :
  run (register gh cfg fo str_of None token now_ms) w =
    (Json 400 (PDict [kv_str "error" "userId required"]), w) /\
  (dict_get (lit "userId") kv = Some (PStr raw) ->
   strip raw = [] ->
   run (register gh cfg fo str_of (Some (PDict kv)) token now_ms) w =
     (Json 400 (PDict [kv_str "error" "userId required"]), w)) /\
  (dict_get (lit "userId") kv = Some (PStr raw) ->
   (64 < List.length (replace_space (strip raw)))%nat ->
   run (register gh cfg fo str_of (Some (PDict kv)) token now_ms) w =
     (Json 400 (PDict [kv_str "error" "userId too long"]), w)).
Proof.
  split; [reflexivity|].
  split; intros Hu Hs;
    (assert (Hb : py_or fo (or_none (Some (PDict kv))) (PDict []) = PDict kv)
      by (unfold py_or; cbn [or_none]; rewrite (truthy_dict_get fo _ _ _ Hu); reflexivity));
    unfold run, register; rewrite Hb; cbv beta iota zeta delta [bind ret get_m];
    rewrite Hu.
  - assert (Hr : strip (py_str str_of (py_or fo (or_none (Some (PStr raw))) (PStr []))) = []).
    { unfold py_or. cbn [or_none]. destruct (py_truthy fo (PStr raw)); exact Hs || reflexivity. }
    rewrite Hr. reflexivity.
  - destruct raw as [|c r]; [cbn in Hs; lia|].
    assert (Hr : py_or fo (or_none (Some (PStr (c :: r)))) (PStr []) = PStr (c :: r)) by reflexivity.
    rewrite Hr. cbn [py_str].
    destruct (strip (c :: r)) as [|d t]; [cbn in Hs; lia|].
    apply Nat.ltb_lt in Hs. rewrite Hs. reflexivity.
Qed.

(** ** An authorised delete of a path in the caller's namespace *)

Section DeleteAuthorized.
Context {st : Type} (gh : github st) (cfg : config) (fo : float_ops)
  (str_of : pyval -> pystr) (w : world st) (kv : list (pystr * pyval))
  (path uid tok : pystr) (sha : option pystr) (users ekv : list (pystr * pyval)).
Hypothesis Hpath : dict_get (lit "filePath") kv = Some (PStr path).
Hypothesis Huid : dict_get (lit "userId") kv = Some (PStr uid).
Hypothesis Htok : dict_get (lit "token") kv = Some (PStr tok).
Hypothesis Hpath_ne : path <> [].
Hypothesis Huid_ne : uid <> [].
Hypothesis Htok_ne : tok <> [].
Hypothesis Hload : fst (load_users_registry gh cfg w) = inr (sha, PDict users).
Hypothesis Hentry : dict_get uid users = Some (PDict ekv).
Hypothesis Hekv_ne : ekv <> [].
Hypothesis Hmatch : dict_get (lit "token") ekv = Some (PStr tok).
Hypothesis Hprefix : startswith path (user_prefix cfg str_of (PStr uid)) = true.

Ltac delete_prelude :=
  assert (Hb : py_or fo (or_none (Some (PDict kv))) (PDict []) = PDict kv)
    by (unfold py_or; cbn [or_none]; rewrite (truthy_dict_get fo _ _ _ Hpath); reflexivity);
  unfold run, delete_file; rewrite Hb;
  cbv beta iota zeta delta [bind ret get_m]; rewrite Hpath, Huid, Htok;
  cbn [or_none];
  replace (py_truthy fo (PStr path)) with true by (destruct path; [contradiction|reflexivity]);
  replace (py_truthy fo (PStr uid)) with true by (destruct uid; [contradiction|reflexivity]);
  replace (py_truthy fo (PStr tok)) with true by (destruct tok; [contradiction|reflexivity]);
  cbv beta iota zeta delta [negb andb];
  rewrite (load_users_registry_split gh cfg w), Hload; cbn [snd];
  cbv beta iota zeta delta [get_any_m dict_get_any ret]; rewrite Hentry;
  destruct ekv as [|p ekv']; [contradiction|]; cbn [py_truthy negb];
  cbv beta iota zeta delta [get_m ret]; rewrite Hmatch; cbn [or_none];
  replace (py_eq fo (PStr tok) (PStr tok)) with true
    by (cbn; destruct (list_eq_dec Z.eq_dec tok tok); [reflexivity|contradiction]);
  cbn [negb]; rewrite Hprefix; cbn [negb];
  unfold get_repo_file, gh_get_m; cbv beta iota zeta delta [bind]; cbn [store calls].

(** X11: when the file exists and decodes, [delete_file] deletes it with
    its current sha and answers success; the calls are the registry GET, the
    file GET and the DELETE. *)
Theorem delete_removes_file (fsha : pystr) (b c : bytes) (status : Z) (j : pyval)
  (text : pystr) (s' : st) :
  gh_get gh path (store w) = GetOk (FileData fsha b) ->
  utf8_decode b = Some c ->
  gh_delete gh path (lit "delete " ++ path) fsha (store w) = (WriteResp status (Some j) text, s') ->
  status = 200 \/ status = 204 ->
  run (delete_file gh cfg fo str_of (Some (PDict kv))) w =
    (Json 200 (PDict [(lit "success", PBool true)]),
     {| store := s';
        calls := calls w ++ [CallGet (USERS_FILE_PATH cfg); CallGet path; CallDelete path] |}).
Proof.
  intros Hg Hc Hd Hs. delete_prelude.
  rewrite Hg, Hc. cbv beta iota zeta delta [ret try_except].
  unfold delete_repo_file, gh_delete_m. cbv beta iota zeta delta [bind]. cbn [store calls].
  rewrite Hd. rewrite <- !app_assoc.
  destruct Hs as [-> | ->]; reflexivity.
Qed.

(** X12: when the path is absent (404), [delete_file] answers 404 and issues
    no DELETE. *)
Theorem delete_missing_file (text : pystr) :
  gh_get gh path (store w) = GetStatus 404 text ->
  run (delete_file gh cfg fo str_of (Some (PDict kv))) w =
    (Json 404 (PDict [kv_str "error" "File not found"]),
     {| store := store w;
        calls := calls w ++ [CallGet (USERS_FILE_PATH cfg); CallGet path] |}).
Proof.
  intros Hg. delete_prelude. rewrite Hg. rewrite <- !app_assoc. reflexivity.
Qed.

(** X13: when the file's bytes are not UTF-8, [get_repo_file] raises
    while decoding them, so [delete_file] answers 500 and the file is not
    deleted. *)
Theorem delete_undecodable_file (fsha : pystr) (b : bytes) :
  gh_get gh path (store w) = GetOk (FileData fsha b) ->
  utf8_decode b = None ->
  run (delete_file gh cfg fo str_of (Some (PDict kv))) w =
    (InternalError,
     {| store := store w;
        calls := calls w ++ [CallGet (USERS_FILE_PATH cfg); CallGet path] |}).
Proof.
  intros Hg Hc. delete_prelude. rewrite Hg, Hc. rewrite <- !app_assoc. reflexivity.
Qed.
(** X14: a DELETE answered with a status other than 200 or 204 gives 500
    "Delete failed" with the GitHub error as detail. *)
Theorem delete_rejected (fsha : pystr) (b c : bytes) (status : Z) (body : option pyval)
  (text : pystr) (s' : st) :
  gh_get gh path (store w) = GetOk (FileData fsha b) ->
  utf8_decode b = Some c ->
  gh_delete gh path (lit "delete " ++ path) fsha (store w) = (WriteResp status body text, s') ->
  status <> 200 -> status <> 204 ->
  run (delete_file gh cfg fo str_of (Some (PDict kv))) w =
    (Json 500 (PDict [kv_str "error" "Delete failed";
                      (lit "detail", PStr (exn_msg (gh_error "DELETE" status text)))]),
     {| store := s';
        calls := calls w ++ [CallGet (USERS_FILE_PATH cfg); CallGet path; CallDelete path] |}).
Proof.
  intros Hg Hc Hd H200 H204. delete_prelude.
  rewrite Hg, Hc. cbv beta iota zeta delta [ret try_except].
  unfold delete_repo_file, gh_delete_m. cbv beta iota zeta delta [bind]. cbn [store calls].
  rewrite Hd.
  replace ((status =? 200) || (status =? 204)) with false
    by (symmetry; apply orb_false_iff; split; apply Z.eqb_neq; assumption).
  rewrite <- !app_assoc. reflexivity.
Qed.

End DeleteAuthorized.

(** ** An authorised upload *)

Section UploadAuthorized.
Context {st : Type} (gh : github st) (cfg : config) (fo : float_ops)
  (is_alnum : Z -> bool) (w : world st) (f : upload_file) (uid tok : option pystr)
  (now_ms : Z) (sha : option pystr) (users ekv : list (pystr * pyval)) (ts : pystr).
Hypothesis Huid_ne : strip (form_str uid) <> [].
Hypothesis Htok_ne : strip (form_str tok) <> [].
Hypothesis Hload : fst (load_users_registry gh cfg w) = inr (sha, PDict users).
Hypothesis Hentry : dict_get (strip (form_str uid)) users = Some (PDict ekv).
Hypothesis Hekv_ne : ekv <> [].
Hypothesis Hmatch : dict_get (lit "token") ekv = Some (PStr (strip (form_str tok))).
Hypothesis Hts : int_repr now_ms = Some ts.

Ltac upload_prelude :=
  unfold run, upload;
  destruct (strip (form_str uid)) as [|cu ru]; [contradiction|];
  destruct (strip (form_str tok)) as [|ct rt]; [contradiction|];
  cbv beta iota zeta delta [bind];
  rewrite (load_users_registry_split gh cfg w), Hload; cbn [snd];
  cbv beta iota zeta delta [get_m ret]; rewrite Hentry;
  destruct ekv as [|p ekv']; [contradiction|]; cbn [py_truthy negb];
  rewrite Hmatch; cbn [or_none];
  rewrite py_eq_str_refl;
  cbn [negb]; unfold int_str_m; rewrite Hts; cbv beta iota zeta delta [ret].

(** X7: a file larger than [MAX_FILE_SIZE] is refused with 413 after the
    registry GET, and nothing is written. *)
Theorem upload_too_large :
  MAX_FILE_SIZE cfg < Z.of_nat (List.length (file_bytes f)) ->
  run (upload gh cfg fo is_alnum (Some f) uid tok now_ms) w =
    (Json 413 (PDict [(lit "error", PStr (lit "File too large. Max allowed is " ++
                                          str_int (MAX_FILE_SIZE cfg) ++ lit " bytes"))]),
     {| store := store w; calls := calls w ++ [CallGet (USERS_FILE_PATH cfg)] |}).
Proof.
  intros Hsz. upload_prelude.
  replace (Z.of_nat (List.length (file_bytes f)) >? MAX_FILE_SIZE cfg) with true
    by (symmetry; apply Z.gtb_lt; exact Hsz).
  reflexivity.
Qed.

(** X8: a file within the limit is PUT, without sha, under
    [NOTES_FOLDER/userId/timestamp_safename] with the message
    [upload timestamp_safename], and the answer gives that path and its
    public URL. *)
Theorem upload_stores_file (status : Z) (j : pyval) (text : pystr) (s' : st) :
  Z.of_nat (List.length (file_bytes f)) <= MAX_FILE_SIZE cfg ->
  gh_put gh (upload_path cfg (strip (form_str uid)) (upload_safe_name is_alnum ts f))
    (file_bytes f) (lit "upload " ++ upload_safe_name is_alnum ts f) None (store w) =
    (WriteResp status (Some j) text, s') ->
  status = 200 \/ status = 201 ->
  run (upload gh cfg fo is_alnum (Some f) uid tok now_ms) w =
    (Json 200 (PDict [(lit "success", PBool true);
        (lit "url", PStr (public_url cfg
           (upload_path cfg (strip (form_str uid)) (upload_safe_name is_alnum ts f))));
        (lit "path", PStr (upload_path cfg (strip (form_str uid))
                             (upload_safe_name is_alnum ts f)))]),
     {| store := s';
        calls := calls w ++ [CallGet (USERS_FILE_PATH cfg);
                             CallPut (upload_path cfg (strip (form_str uid))
                                        (upload_safe_name is_alnum ts f))] |}).
Proof.
  intros Hsz Hp Hs. unfold upload_path, upload_safe_name in *. upload_prelude.
  replace (Z.of_nat (List.length (file_bytes f)) >? MAX_FILE_SIZE cfg) with false
    by (symmetry; rewrite Z.gtb_ltb; apply Z.ltb_ge; exact Hsz).
  cbv beta iota zeta delta [try_except bind put_repo_file gh_put_m ret].
  cbn [store calls]. rewrite Hp. rewrite <- !app_assoc.
  destruct Hs as [-> | ->]; reflexivity.
Qed.

(** X9: a PUT answered with a status other than 200 or 201 gives 500
    "GitHub upload failed" with the GitHub error as detail. *)
Theorem upload_put_rejected (status : Z) (body : option pyval) (text : pystr) (s' : st) :
  Z.of_nat (List.length (file_bytes f)) <= MAX_FILE_SIZE cfg ->
  gh_put gh (upload_path cfg (strip (form_str uid)) (upload_safe_name is_alnum ts f))
    (file_bytes f) (lit "upload " ++ upload_safe_name is_alnum ts f) None (store w) =
    (WriteResp status body text, s') ->
  status <> 200 -> status <> 201 ->
  run (upload gh cfg fo is_alnum (Some f) uid tok now_ms) w =
    (Json 500 (PDict [kv_str "error" "GitHub upload failed";
                      (lit "detail", PStr (exn_msg (gh_error "PUT" status text)))]),
     {| store := s';
        calls := calls w ++ [CallGet (USERS_FILE_PATH cfg);
                             CallPut (upload_path cfg (strip (form_str uid))
                                        (upload_safe_name is_alnum ts f))] |}).
Proof.
  intros Hsz Hp H200 H201. unfold upload_path, upload_safe_name in *. upload_prelude.
  replace (Z.of_nat (List.length (file_bytes f)) >? MAX_FILE_SIZE cfg) with false
    by (symmetry; rewrite Z.gtb_ltb; apply Z.ltb_ge; exact Hsz).
  cbv beta iota zeta delta [try_except bind put_repo_file gh_put_m ret].
  cbn [store calls]. rewrite Hp.
  replace ((status =? 200) || (status =? 201)) with false
    by (symmetry; apply orb_false_iff; split; apply Z.eqb_neq; assumption).
  rewrite <- !app_assoc. reflexivity.
Qed.
End UploadAuthorized.

(** X10: when [str.isalnum] rejects '/', the ownership check of
    [delete_file] accepts a path [upload] writes for [u] for exactly the ids
    [u' = u] and the ids [u'] with [u = u' ++ "/" ++ r]: a user whose id is
    a '/'-prefix of another user's id passes the check on that user's
    files. *)
Theorem upload_path_owners (cfg : config) (str_of : pyval -> pystr) (is_alnum : Z -> bool)
  (f : upload_file) (now_ms : Z) (ts u u' : pystr) :
  is_alnum 47 = false ->
  int_repr now_ms = Some ts ->
  startswith (upload_path cfg u (upload_safe_name is_alnum ts f))
             (user_prefix cfg str_of (PStr u')) = true <->
  u' = u \/ exists r, u = u' ++ [47] ++ r.
Proof.
  intros Ha Hts. unfold upload_path, user_prefix, py_str.
  rewrite startswith_app_l. rewrite (startswith_app_l [47]).
  apply startswith_slash. unfold upload_safe_name. intros Hin.
  apply in_app_or in Hin as [Hin|[Hin|Hin]].
  - exact (int_repr_no_slash _ _ Hts Hin).
  - discriminate.
  - exact (safe_filename_no_slash _ _ Ha Hin).
Qed.

(** ** Registering a fresh id *)

Section RegisterFresh.
Context {st : Type} (gh : github st) (cfg : config) (fo : float_ops)
  (str_of : pyval -> pystr) (w : world st) (kv : list (pystr * pyval)) (raw token : pystr)
  (now_ms : Z) (sha : option pystr) (reg : list (pystr * user_entry)).
Hypothesis Hu : dict_get (lit "userId") kv = Some (PStr raw).
Hypothesis Hne : strip raw <> [].
Hypothesis Hlen : (List.length (replace_space (strip raw)) <= 64)%nat.
Hypothesis Hgu : good_str (replace_space (strip raw)) = true.
Hypothesis Hgt : good_str token = true.
Hypothesis Hgd : good_str (register_display fo str_of kv) = true.
Hypothesis Hnow : int_fits now_ms = true.
Hypothesis Hload : fst (load_users_registry gh cfg w) = inr (sha, registry_value reg).
Hypothesis Hgr : good_registry reg = true.
Hypothesis Hfresh : ~ In (replace_space (strip raw)) (map fst reg).

Ltac register_prelude text Hd Hl Henc Hdec :=
  let Hge := fresh "Hge" in let Hg' := fresh "Hg'" in let Ha := fresh "Ha" in
  let Hb := fresh "Hb" in let Hr := fresh "Hr" in let Hc := fresh "Hc" in
  let Hlt := fresh "Hlt" in
  assert (Hge : good_entry {| ue_token := token; ue_display := register_display fo str_of kv;
                             ue_createdAt := now_ms |} = true)
    by (unfold good_entry; cbn [ue_token ue_display ue_createdAt]; rewrite Hgt, Hgd, Hnow;
        reflexivity);
  assert (Hg' : good_registry (reg ++ [(replace_space (strip raw),
            {| ue_token := token; ue_display := register_display fo str_of kv;
               ue_createdAt := now_ms |})]) = true)
    by (apply good_registry_snoc; auto);
  destruct (registry_json _ Hg') as [text [Hd [Ha Hl]]];
  destruct (utf8_ascii text Ha) as [Henc Hdec];
  assert (Hb : py_or fo (or_none (Some (PDict kv))) (PDict []) = PDict kv)
    by (unfold py_or; cbn [or_none]; rewrite (truthy_dict_get fo _ _ _ Hu); reflexivity);
  assert (Hr : py_or fo (or_none (Some (PStr raw))) (PStr []) = PStr raw)
    by (unfold py_or; cbn [or_none]; destruct raw; [contradiction|reflexivity]);
  assert (Hc : py_contains_str (replace_space (strip raw)) (registry_value reg) = Some false)
    by (unfold registry_value; cbn [py_contains_str]; unfold dict_mem;
        rewrite registry_get_fresh by exact Hfresh; reflexivity);
  assert (Hlt : Nat.ltb 64 (List.length (replace_space (strip raw))) = false)
    by (apply Nat.ltb_ge; exact Hlen);
  unfold run, register; rewrite Hb;
  cbv beta iota zeta delta [bind ret get_m]; rewrite Hu, Hr; cbn [py_str];
  fold (register_display fo str_of kv);
  rewrite (match_nonempty _ _ _ Hne), Hlt;
  rewrite (load_users_registry_split gh cfg w), Hload; cbn [snd fst];
  unfold contains; rewrite Hc; cbv beta iota zeta delta [ret];
  change (user_record token (register_display fo str_of kv) now_ms) with
    (entry_value {| ue_token := token; ue_display := register_display fo str_of kv;
                    ue_createdAt := now_ms |});
  rewrite (set_item_fresh (st := st) reg _ _ Hfresh); cbv beta iota zeta delta [ret];
  unfold save_users_registry, registry_payload; rewrite Hd, Henc;
  unfold put_repo_file, gh_put_m; cbv beta iota zeta delta [try_except bind]; cbn [store calls].

(** X5: for a well-formed registry (distinct userIds with records
    [{token, display, createdAt}]), a new id, token and display holding no
    split surrogate pair, and a timestamp of at most 4300 digits: when the
    registry write succeeds and the file is served back, the registry loaded
    afterwards is the old one with the new record appended, every earlier
    record unchanged. *)
Theorem register_appends_entry :
  (forall b m, exists status j text s' sha', (status = 200 \/ status = 201) /\
     gh_put gh (USERS_FILE_PATH cfg) b m
       (match sha with Some (_ :: _) => sha | _ => None end) (store w) =
       (WriteResp status (Some j) text, s') /\
     gh_get gh (USERS_FILE_PATH cfg) s' = GetOk (FileData sha' b)) ->
  let (r, w') := run (register gh cfg fo str_of (Some (PDict kv)) token now_ms) w in
  exists sha', fst (load_users_registry gh cfg w') =
    inr (Some sha', registry_value (reg ++ [(replace_space (strip raw),
           {| ue_token := token; ue_display := register_display fo str_of kv;
              ue_createdAt := now_ms |})])).
Proof.
  intros Hput. register_prelude text Hd Hl Henc Hdec.
  destruct (Hput text (lit "update " ++ USERS_FILE_PATH cfg))
    as (status & j & txt & s' & sha' & Hst & Hp & Hget).
  rewrite Hp.
  destruct Hst as [-> | ->]; cbv beta iota zeta delta [orb Z.eqb Pos.eqb ret];
    exists sha'; (rewrite (load_users_registry_file gh cfg _ sha' text); [|exact Hget]);
    rewrite Hdec, Hl; reflexivity.
Qed.

End RegisterFresh.

(** X6: when the userId is valid and new, the updated registry serialises,
    and the registry PUT is answered with a status other than 200 or 201,
    [register] answers 500 "Failed to write registry" with the GitHub error
    as detail. *)
Theorem register_write_rejected {st} (gh : github st) (cfg : config) (fo : float_ops)
  (str_of : pyval -> pystr) (w : world st) (kv : list (pystr * pyval)) (raw token : pystr)
  (now_ms : Z) (sha : option pystr) (users : list (pystr * pyval)) (payload : bytes)
  (status : Z) (body : option pyval) (text : pystr) (s' : st) :
  dict_get (lit "userId") kv = Some (PStr raw) ->
  strip raw <> [] ->
  (List.length (replace_space (strip raw)) <= 64)%nat ->
  fst (load_users_registry gh cfg w) = inr (sha, PDict users) ->
  dict_mem (replace_space (strip raw)) users = false ->
  registry_payload (PDict (dict_set (replace_space (strip raw))
      (user_record token (register_display fo str_of kv) now_ms) users)) = Some payload ->
  gh_put gh (USERS_FILE_PATH cfg) payload (lit "update " ++ USERS_FILE_PATH cfg)
    (match sha with Some (_ :: _) => sha | _ => None end) (store w) =
    (WriteResp status body text, s') ->
  status <> 200 -> status <> 201 ->
  run (register gh cfg fo str_of (Some (PDict kv)) token now_ms) w =
    (Json 500 (PDict [kv_str "error" "Failed to write registry";
                      (lit "detail", PStr (exn_msg (gh_error "PUT" status text)))]),
     {| store := s';
        calls := calls w ++ [CallGet (USERS_FILE_PATH cfg); CallPut (USERS_FILE_PATH cfg)] |}).
Proof.
  intros Hu Hne Hlen Hload Hfresh Hpay Hput H200 H201.
  assert (Hb : py_or fo (or_none (Some (PDict kv))) (PDict []) = PDict kv)
    by (unfold py_or; cbn [or_none]; rewrite (truthy_dict_get fo _ _ _ Hu); reflexivity).
  assert (Hr : py_or fo (or_none (Some (PStr raw))) (PStr []) = PStr raw)
    by (unfold py_or; cbn [or_none]; destruct raw; [contradiction|reflexivity]).
  assert (Hlt : Nat.ltb 64 (List.length (replace_space (strip raw))) = false)
    by (apply Nat.ltb_ge; exact Hlen).
  unfold run, register. rewrite Hb.
  cbv beta iota zeta delta [bind ret get_m]. rewrite Hu, Hr. cbn [py_str].
  fold (register_display fo str_of kv).
  rewrite (match_nonempty _ _ _ Hne), Hlt.
  rewrite (load_users_registry_split gh cfg w), Hload. cbn [snd fst].
  unfold contains. cbn [py_contains_str]. rewrite Hfresh.
  unfold set_item. cbv beta iota zeta delta [ret].
  unfold save_users_registry. rewrite Hpay.
  unfold put_repo_file, gh_put_m. cbv beta iota zeta delta [try_except bind]. cbn [store calls].
  rewrite Hput.
  replace ((status =? 200) || (status =? 201)) with false
    by (symmetry; apply orb_false_iff; split; apply Z.eqb_neq; assumption).
  rewrite <- !app_assoc. reflexivity.
Qed.

(** X16: a registry GET answered 404 loads as the empty dict with no sha;
    any other error status raises the GitHub GET error. *)
Theorem load_registry_status {st} (gh : github st) (cfg : config) (w : world st)
  (status : Z) (text : pystr) :
  gh_get gh (USERS_FILE_PATH cfg) (store w) = GetStatus status text ->
  fst (load_users_registry gh cfg w) =
    if status =? 404 then inr (None, PDict []) else inl (gh_error "GET" status text).
Proof.
  intros Hg. unfold load_users_registry, get_repo_file, gh_get_m.
  cbv beta iota zeta delta [bind]. cbn [store]. rewrite Hg.
  destruct (status =? 404); reflexivity.
Qed.

(** * Examples of the further properties *)

(** The hypotheses of a property at a concrete input, evaluated. *)
Ltac concrete :=
  solve [ vm_compute; reflexivity | vm_compute; discriminate
        | vm_compute; lia | left; vm_compute; reflexivity | right; vm_compute; reflexivity
        | vm_compute;
          match goal with
          | |- _ -> False => intros H; repeat destruct H as [H|H]; try discriminate H; contradiction
          end ].

(** Writes to the in-memory repository. *)

Lemma mem_put_update (path b m cur : pystr) (x : bytes) (fs : memfs) :
  mem_lookup path fs = Some (cur, x) ->
  mem_put path b m (Some cur) fs = (WriteResp 200 (Some (PDict [])) [], mem_write path b fs).
Proof.
  intros H. unfold mem_put. rewrite H.
  destruct (list_eq_dec Z.eq_dec cur cur); [reflexivity|contradiction].
Qed.

Lemma mem_lookup_write (path b : pystr) (fs : memfs) :
  mem_lookup path (mem_write path b fs) = Some (mem_sha b, b).
Proof.
  unfold mem_write. destruct (mem_lookup path fs) as [y|] eqn:E.
  - induction fs as [|[p x] fs IH]; [discriminate|].
    cbn [map mem_lookup fst] in *.
    destruct (list_eq_dec Z.eq_dec path p) as [->|Hne]; cbn [mem_lookup].
    + destruct (list_eq_dec Z.eq_dec p p); [reflexivity|contradiction].
    + destruct (list_eq_dec Z.eq_dec path p); [contradiction|]. apply IH, E.
  - induction fs as [|[p x] fs IH]; cbn [app mem_lookup] in *.
    + destruct (list_eq_dec Z.eq_dec path path); [reflexivity|contradiction].
    + destruct (list_eq_dec Z.eq_dec path p); [discriminate|]. apply IH, E.
Qed.

Lemma json_string_round_trip_witness :
  good_str [233; 116] = true /\
  exists t, json_dumps (PStr [233; 116]) = Some t /\ forallb is_ascii t = true /\
    json_loads t = Some (PStr [233; 116]).
Proof. split; [reflexivity|]. apply json_string_round_trip. reflexivity. Defined.

Lemma check_user_answer_witness :
  run (check_user (mem_github default_config) default_config (lit " alice "))
      (mem_world alice_store) =
    (Json 200 (PDict [(lit "available", PBool (negb (dict_mem (strip (lit " alice ")) alice_users)))]),
     {| store := alice_store; calls := [] ++ [CallGet (lit "users.json")] |}).
Proof.
  apply (check_user_answer (mem_github default_config) default_config (mem_world alice_store)
           (lit " alice ") (fst alice_loaded) alice_users).
  concrete.
Defined.

Lemma list_user_unknown_witness :
  run (list_user (mem_github default_config) default_config fo0 (lit "bob"))
      (mem_world alice_store) =
    (Json 404 (PDict [kv_str "error" "Unknown userId"]),
     {| store := alice_store; calls := [] ++ [CallGet (lit "users.json")] |}).
Proof.
  apply (list_user_unknown (mem_github default_config) default_config fo0 (mem_world alice_store)
           (lit "bob") alice_loaded); concrete.
Defined.

Lemma register_rejects_id_witness :
  run (register (mem_github default_config) default_config fo0 str0
         (Some (PDict [(lit "userId", PStr (lit "   "))])) (lit "0f3a") 1700000000000)
      (mem_world alice_store) =
    (Json 400 (PDict [kv_str "error" "userId required"]), mem_world alice_store).
Proof.
  apply (proj1 (proj2 (register_rejects_id (mem_github default_config) default_config fo0 str0
           (mem_world alice_store) [(lit "userId", PStr (lit "   "))] (lit "   ") (lit "0f3a")
           1700000000000))); concrete.
Defined.

Lemma register_appends_entry_witness :
  let (r, w') := run (register (mem_github default_config) default_config fo0 str0
                        (Some (PDict [(lit "userId", PStr (lit "bob"))])) (lit "7c1d")
                        1700000000001) (mem_world alice_store) in
  exists sha', fst (load_users_registry (mem_github default_config) default_config w') =
    inr (Some sha', registry_value (alice_registry ++
           [(replace_space (strip (lit "bob")),
             {| ue_token := lit "7c1d";
                ue_display := register_display fo0 str0 [(lit "userId", PStr (lit "bob"))];
                ue_createdAt := 1700000000001 |})])).
Proof.
  apply (register_appends_entry (mem_github default_config) default_config fo0 str0
           (mem_world alice_store) [(lit "userId", PStr (lit "bob"))] (lit "bob") (lit "7c1d")
           1700000000001 (fst alice_loaded) alice_registry).
  1-10: concrete.
  intros b m.
  exists 200, (PDict []), [], (mem_write (lit "users.json") b alice_store), (mem_sha b).
  split; [left; reflexivity|].
  change (USERS_FILE_PATH default_config) with (lit "users.json").
  change (fst alice_loaded) with (Some (mem_sha (payload_of (registry_value alice_registry)))).
  assert (Hs : match Some (mem_sha (payload_of (registry_value alice_registry))) with
               | Some (_ :: _) => Some (mem_sha (payload_of (registry_value alice_registry)))
               | _ => None
               end = Some (mem_sha (payload_of (registry_value alice_registry))))
    by (vm_compute; reflexivity).
  cbv beta iota. rewrite Hs. cbn [gh_put gh_get mem_github store mem_world]. split.
  - apply (mem_put_update _ _ _ _ (payload_of (registry_value alice_registry))).
    vm_compute. reflexivity.
  - unfold mem_get. rewrite mem_lookup_write. reflexivity.
Defined.

Lemma register_write_rejected_witness :
  run (register (readonly_github default_config) default_config fo0 str0
         (Some (PDict [(lit "userId", PStr (lit "bob"))])) (lit "7c1d") 1700000000001)
      (mem_world alice_store) =
    (Json 500 (PDict [kv_str "error" "Failed to write registry";
                      (lit "detail", PStr (exn_msg (gh_error "PUT" 403
                                                      (lit "Resource not accessible"))))]),
     {| store := alice_store;
        calls := [] ++ [CallGet (lit "users.json"); CallPut (lit "users.json")] |}).
Proof.
  apply (register_write_rejected (readonly_github default_config) default_config fo0 str0
           (mem_world alice_store) [(lit "userId", PStr (lit "bob"))] (lit "bob") (lit "7c1d")
           1700000000001 (fst alice_loaded) alice_users
           (payload_of (PDict (dict_set (lit "bob")
              (user_record (lit "7c1d") [] 1700000000001) alice_users)))
           403 None (lit "Resource not accessible") alice_store);
    concrete.
Defined.

Lemma upload_too_large_witness :
  run (upload (mem_github tiny_config) tiny_config fo0 ascii_isalnum (Some notes_file)
         (Some (lit "alice")) (Some (lit "0f3a")) 1700000000000) (mem_world alice_store) =
    (Json 413 (PDict [(lit "error", PStr (lit "File too large. Max allowed is " ++
                                          str_int 1 ++ lit " bytes"))]),
     {| store := alice_store; calls := [] ++ [CallGet (lit "users.json")] |}).
Proof.
  apply (upload_too_large (mem_github tiny_config) tiny_config fo0 ascii_isalnum
           (mem_world alice_store) notes_file (Some (lit "alice")) (Some (lit "0f3a"))
           1700000000000 (fst alice_loaded) alice_users alice_record (lit "1700000000000"));
    concrete.
Defined.

Lemma upload_stores_file_witness :
  let path := upload_path default_config (lit "alice")
                (upload_safe_name ascii_isalnum (lit "1700000000000") notes_file) in
  run (upload (mem_github default_config) default_config fo0 ascii_isalnum (Some notes_file)
         (Some (lit "alice")) (Some (lit "0f3a")) 1700000000000) (mem_world alice_store) =
    (Json 200 (PDict [(lit "success", PBool true);
                      (lit "url", PStr (public_url default_config path));
                      (lit "path", PStr path)]),
     {| store := mem_write path [104; 105] alice_store;
        calls := [] ++ [CallGet (lit "users.json"); CallPut path] |}).
Proof.
  apply (upload_stores_file (mem_github default_config) default_config fo0 ascii_isalnum
           (mem_world alice_store) notes_file (Some (lit "alice")) (Some (lit "0f3a"))
           1700000000000 (fst alice_loaded) alice_users alice_record (lit "1700000000000"))
    with (status := 201) (j := PDict []) (text := []); concrete.
Defined.

Lemma upload_put_rejected_witness :
  let path := upload_path default_config (lit "alice")
                (upload_safe_name ascii_isalnum (lit "1700000000000") notes_file) in
  run (upload (readonly_github default_config) default_config fo0 ascii_isalnum
         (Some notes_file) (Some (lit "alice")) (Some (lit "0f3a")) 1700000000000)
      (mem_world alice_store) =
    (Json 500 (PDict [kv_str "error" "GitHub upload failed";
                      (lit "detail", PStr (exn_msg (gh_error "PUT" 403
                                                      (lit "Resource not accessible"))))]),
     {| store := alice_store; calls := [] ++ [CallGet (lit "users.json"); CallPut path] |}).
Proof.
  apply (upload_put_rejected (readonly_github default_config) default_config fo0 ascii_isalnum
           (mem_world alice_store) notes_file (Some (lit "alice")) (Some (lit "0f3a"))
           1700000000000 (fst alice_loaded) alice_users alice_record (lit "1700000000000"))
    with (status := 403) (body := None) (text := lit "Resource not accessible"); concrete.
Defined.

Lemma upload_path_owners_witness :
  startswith (upload_path default_config (lit "a/b")
                (upload_safe_name ascii_isalnum (lit "1700000000000") notes_file))
             (user_prefix default_config str0 (PStr (lit "a"))) = true.
Proof.
  refine (proj2 (upload_path_owners default_config str0 ascii_isalnum notes_file 1700000000000
                   (lit "1700000000000") (lit "a/b") (lit "a") _ _) _).
  all: first [reflexivity | right; exists (lit "b"); reflexivity].
Defined.

Lemma delete_removes_file_witness :
  run (delete_file (mem_github default_config) default_config fo0 str0
         (Some (PDict (alice_delete (lit "notes/alice/1_a.txt"))))) (mem_world listed_store) =
    (Json 200 (PDict [(lit "success", PBool true)]),
     {| store := mem_remove (lit "notes/alice/1_a.txt") listed_store;
        calls := [] ++ [CallGet (lit "users.json"); CallGet (lit "notes/alice/1_a.txt");
                        CallDelete (lit "notes/alice/1_a.txt")] |}).
Proof.
  apply (delete_removes_file (mem_github default_config) default_config fo0 str0
           (mem_world listed_store) (alice_delete (lit "notes/alice/1_a.txt"))
           (lit "notes/alice/1_a.txt") (lit "alice") (lit "0f3a") (fst alice_loaded)
           alice_users alice_record)
    with (fsha := mem_sha [104]) (b := [104]) (c := [104]) (status := 200) (j := PDict [])
         (text := []); concrete.
Defined.

Lemma delete_missing_file_witness :
  run (delete_file (mem_github default_config) default_config fo0 str0
         (Some (PDict (alice_delete (lit "notes/alice/1_a.txt"))))) (mem_world alice_store) =
    (Json 404 (PDict [kv_str "error" "File not found"]),
     {| store := alice_store;
        calls := [] ++ [CallGet (lit "users.json"); CallGet (lit "notes/alice/1_a.txt")] |}).
Proof.
  apply (delete_missing_file (mem_github default_config) default_config fo0 str0
           (mem_world alice_store) (alice_delete (lit "notes/alice/1_a.txt"))
           (lit "notes/alice/1_a.txt") (lit "alice") (lit "0f3a") (fst alice_loaded)
           alice_users alice_record)
    with (text := lit "Not Found"); concrete.
Defined.

Lemma delete_undecodable_file_witness :
  run (delete_file (mem_github default_config) default_config fo0 str0
         (Some (PDict (alice_delete (lit "notes/alice/2_b.bin"))))) (mem_world binary_store) =
    (InternalError,
     {| store := binary_store;
        calls := [] ++ [CallGet (lit "users.json"); CallGet (lit "notes/alice/2_b.bin")] |}).
Proof.
  apply (delete_undecodable_file (mem_github default_config) default_config fo0 str0
           (mem_world binary_store) (alice_delete (lit "notes/alice/2_b.bin"))
           (lit "notes/alice/2_b.bin") (lit "alice") (lit "0f3a") (fst alice_loaded)
           alice_users alice_record)
    with (fsha := mem_sha [255]) (b := [255]); concrete.
Defined.

Lemma delete_rejected_witness :
  run (delete_file (readonly_github default_config) default_config fo0 str0
         (Some (PDict (alice_delete (lit "notes/alice/1_a.txt"))))) (mem_world listed_store) =
    (Json 500 (PDict [kv_str "error" "Delete failed";
                      (lit "detail", PStr (exn_msg (gh_error "DELETE" 403
                                                      (lit "Resource not accessible"))))]),
     {| store := listed_store;
        calls := [] ++ [CallGet (lit "users.json"); CallGet (lit "notes/alice/1_a.txt");
                        CallDelete (lit "notes/alice/1_a.txt")] |}).
Proof.
  apply (delete_rejected (readonly_github default_config) default_config fo0 str0
           (mem_world listed_store) (alice_delete (lit "notes/alice/1_a.txt"))
           (lit "notes/alice/1_a.txt") (lit "alice") (lit "0f3a") (fst alice_loaded)
           alice_users alice_record)
    with (fsha := mem_sha [104]) (b := [104]) (c := [104]) (status := 403) (body := None)
         (text := lit "Resource not accessible"); concrete.
Defined.


Lemma load_registry_status_witness :
  fst (load_users_registry (mem_github default_config) default_config (mem_world [])) =
    if 404 =? 404 then inr (None, PDict [])
    else inl (gh_error "GET" 404 (lit "Not Found")).
Proof.
  apply (load_registry_status (mem_github default_config) default_config (mem_world []));
    concrete.
Defined.
